(** * knxmap: the command-line entry point and the bus/group monitor session

    A shallow embedding of [knxmap.py] ([main]) and of
    [knxmap/bus/monitor.py] ([KnxBusMonitor]), with the properties of the
    specification stated over it.

    Python code is embedded as functions in a state-and-exception monad:
    the state is what the code mutates (the attributes of [self], the calls
    made on the transport, the loop, the future and the logger, recorded in
    order), and a raised exception ends the computation while keeping the
    state reached so far. *)

From Stdlib Require Import ZArith Lia Strings.Byte.
From stdpp Require Import base option list strings gmap pretty.

Open Scope string_scope.
Open Scope list_scope.
Open Scope Z_scope.

(** ** Python values, exceptions and the effect monad *)

Module Py.

(** The exceptions the embedded code can raise. [LibraryError] stands for
    whatever a call into code outside these two files raises. *)
Inductive exn : Type :=
| NameError (name : string)
| UnboundLocalError (name : string)
| AttributeError (type_name attr : string)
| AssertionError
| KeyError (key : Z)
| IndexError
| TypeError
| InvalidStateError
| KeyboardInterrupt
| SystemExit (code : Z)
| LibraryError (what : string).

Inductive result (A : Type) : Type :=
| Ok (a : A)
| Raise (e : exn).
Arguments Ok {A} a.
Arguments Raise {A} e.

(** A computation over a state [S]: the state after it, and its result. *)
Definition M (S A : Type) : Type := S -> S * result A.

Definition ret {S A} (a : A) : M S A := fun s => (s, Ok a).

Definition bind {S A B} (c : M S A) (k : A -> M S B) : M S B :=
  fun s => match c s with
           | (s', Ok a) => k a s'
           | (s', Raise e) => (s', Raise e)
           end.

Definition raise {S A} (e : exn) : M S A := fun s => (s, Raise e).

Definition lift {S A} (r : result A) : M S A := fun s => (s, r).

Definition modify {S} (f : S -> S) : M S unit := fun s => (f s, Ok tt).

Definition gets {S A} (f : S -> A) : M S A := fun s => (s, Ok (f s)).

(** [if cond: body] with no [else]. *)
Definition when {S} (cond : bool) (body : M S unit) : M S unit :=
  if cond then body else ret tt.

(** [try: body / except exc: handler / finally: final].  The handler runs
    when [body] raises an exception that [catches] accepts; [final] runs
    in every case, and the exception pending after the handler (if any)
    is raised again after it unless [final] itself raises. *)
Definition try_except_finally {S}
    (body : M S unit) (catches : exn -> bool) (handler : M S unit)
    (final : M S unit) : M S unit :=
  fun s =>
    let '(s1, r1) :=
      match body s with
      | (s', Raise e) => if catches e then handler s' else (s', Raise e)
      | ok => ok
      end in
    match final s1 with
    | (s2, Ok _) => (s2, r1)
    | (s2, Raise e) => (s2, Raise e)
    end.

(** Truth value of [None]-or-string, of [None]-or-int and of a list. *)
Definition truthy_str (o : option string) : bool :=
  match o with
  | Some s => negb (String.eqb s EmptyString)
  | None => false
  end.

Definition truthy_int (o : option Z) : bool :=
  match o with
  | Some z => negb (Z.eqb z 0)
  | None => false
  end.

Definition truthy_list {A} (l : list A) : bool :=
  match l with
  | [] => false
  | _ :: _ => true
  end.

(** [l[i]]: a negative index counts from the end; out of range raises. *)
Definition index {A} (l : list A) (i : Z) : result A :=
  let n := Z.of_nat (length l) in
  let j := if i <? 0 then i + n else i in
  if (j <? 0) || (n <=? j) then Raise IndexError
  else match nth_error l (Z.to_nat j) with
       | Some a => Ok a
       | None => Raise IndexError
       end.

(** [str(x)] for an int, and for a value that may be [None]. *)
Definition str_int (z : Z) : string := pretty z.

Definition str_opt {A} (f : A -> string) (o : option A) : string :=
  match o with
  | Some a => f a
  | None => "None"
  end.

(** [codecs.encode(b, 'hex')]: two lower-case hexadecimal digits a byte. *)
Definition hex_digit (d : N) : byte :=
  match Byte.of_N (if (d <? 10)%N then 48 + d else 87 + d)%N with
  | Some b => b
  | None => x00
  end.

Definition hex_encode (b : list byte) : list byte :=
  flat_map (fun c => [hex_digit (Byte.to_N c / 16);
                      hex_digit (Byte.to_N c mod 16)]) b.

Definition char_of (b : byte) : string :=
  String (Ascii.ascii_of_byte b) EmptyString.

(** [repr(b)] of a bytes object, which is also its [str] and what
    [format] inserts: the quote is a single one unless the bytes hold a
    single quote and no double one; the quote and the backslash are
    escaped, tab, newline and carriage return are written as [\t], [\n]
    and [\r], other bytes outside the printable ASCII range as [\xhh]. *)
Definition repr_quote (b : list byte) : byte :=
  if existsb (Byte.eqb x27) b && negb (existsb (Byte.eqb x22) b)
  then x22 else x27.

Definition repr_byte (quote c : byte) : string :=
  if Byte.eqb c quote || Byte.eqb c x5c then "\" +:+ char_of c
  else if Byte.eqb c x09 then "\t"
  else if Byte.eqb c x0a then "\n"
  else if Byte.eqb c x0d then "\r"
  else if (Byte.to_N c <? 32)%N || (127 <=? Byte.to_N c)%N
  then "\x" +:+ char_of (hex_digit (Byte.to_N c / 16))
            +:+ char_of (hex_digit (Byte.to_N c mod 16))
  else char_of c.

Definition bytes_repr (b : list byte) : string :=
  let q := repr_quote b in
  "b" +:+ char_of q
      +:+ fold_right (fun c acc => repr_byte q c +:+ acc) EmptyString b
      +:+ char_of q.

(** The values whose class is not fixed by these files. *)
Inductive value : Type :=
| VNone
| VInt (z : Z)
| VStr (s : string)
| VBytes (b : list byte).

Definition str_value (v : value) : string :=
  match v with
  | VNone => "None"
  | VInt z => str_int z
  | VStr s => s
  | VBytes b => bytes_repr b
  end.

End Py.

Import Py.

#[global] Instance M_ret {S} : MRet (M S) := fun A a => ret a.
#[global] Instance M_bind {S} : MBind (M S) := fun A B k c => bind c k.

(** The same for a computation with no state. *)
#[global] Instance result_ret : MRet result := fun A a => Ok a.
#[global] Instance result_bind : MBind result :=
  fun A B k r => match r with
                 | Ok a => k a
                 | Raise e => Raise e
                 end.
#[global] Instance result_fmap : FMap result :=
  fun A B f r => match r with
                 | Ok a => Ok (f a)
                 | Raise e => Raise e
                 end.

(** ** [knxmap.py]: the [main] function *)

Module Cli.

(** The namespace [ARGS.parse_args()] returns, one field per
    [add_argument] with its [dest].  [level] starts at 2, is counted up
    by [-v] and set to 0 by [-q], so it is never negative.  The two
    [--group-*] options default to [False] and otherwise hold the string
    given: [None] stands for that [False]. *)
Record Args : Type := {
  targets : list string;
  port : Z;
  workers : Z;
  iface : option string;
  search_mode : bool;
  search_timeout : Z;
  desc_timeout : Z;
  desc_retries : Z;
  bus_targets : option string;
  bus_info : bool;
  bus_monitor_mode : bool;
  group_monitor_mode : bool;
  level : N;
  bruteforce_key : bool;
  auth_key : Z;
  group_write_value : option string;
  group_write_address : option string;
  routing : bool
}.

(** The namespace of an invocation with no option and no target. *)
Definition defaults : Args := {|
  targets := [];
  port := 3671;
  workers := 30;
  iface := None;
  search_mode := false;
  search_timeout := 5;
  desc_timeout := 2;
  desc_retries := 3;
  bus_targets := None;
  bus_info := false;
  bus_monitor_mode := false;
  group_monitor_mode := false;
  level := 2%N;
  bruteforce_key := false;
  auth_key := 0xffffffff;
  group_write_value := None;
  group_write_address := None;
  routing := false
|}.

Inductive LogLevel : Type := ERROR | WARN | INFO | DEBUG.

Definition Endpoint : Type := string * Z.

(** The keyword arguments of the two scanner calls. *)
Record GroupWriterCall : Type := {
  gw_target : option string;
  gw_value : option string;
  gw_desc_timeout : Z;
  gw_desc_retries : Z;
  gw_iface : option string;
  gw_routing : bool
}.

Record ScanCall : Type := {
  sc_search_mode : bool;
  sc_search_timeout : Z;
  sc_desc_timeout : Z;
  sc_desc_retries : Z;
  sc_bus_targets : list Z;
  sc_bus_info : bool;
  sc_bus_monitor_mode : bool;
  sc_group_monitor_mode : bool;
  sc_iface : option string;
  sc_bruteforce_key : bool;
  sc_auth_key : Z
}.

(** What [main] does to the outside, in order.  [RunGroupWriter] and
    [RunScan] are the two coroutines given to [loop.run_until_complete];
    [DisconnectBusProtocols] is the loop over [scanner.bus_protocols] of
    the interrupt handler. *)
Inductive Event : Type :=
| PrintHelp
| BasicConfig (lvl : LogLevel) (format : string)
| GetEventLoop
| LogError (msg : string)
| LogInfo (msg : string)
| NewScanner (scanner_targets : list Endpoint) (max_workers : Z)
| RunGroupWriter (call : GroupWriterCall)
| RunScan (call : ScanCall)
| CancelAllTasks
| RunForever
| DisconnectBusProtocols
| LoopClose.

Definition Trace : Type := list Event.

Definition emit (e : Event) : M Trace unit := modify (fun t => t ++ [e]).

Definition sys_exit {A} (code : Z) : M Trace A := raise (SystemExit code).

(** The names bound in the module when [main] runs: the module's own
    attributes, the imports of lines 2 to 7 and 18, [LOGGER], [ARGS] and
    [main] itself. *)
Definition module_globals : list string :=
  ["__name__"; "__doc__"; "__package__"; "__loader__"; "__spec__";
   "__file__"; "__cached__"; "__builtins__";
   "sys"; "os"; "argparse"; "logging";
   "KnxMap"; "Targets"; "KnxTargets";
   "asyncio"; "LOGGER"; "ARGS"; "main"].

(** The names of Python 3's [builtins] module, searched after the
    module's globals: functions and types, constants, the names the
    [site] module adds, and the exception classes. *)
Definition builtins : list string :=
  ["abs"; "aiter"; "all"; "anext"; "any"; "ascii"; "bin"; "bool";
   "breakpoint"; "bytearray"; "bytes"; "callable"; "chr"; "classmethod";
   "compile"; "complex"; "delattr"; "dict"; "dir"; "divmod"; "enumerate";
   "eval"; "exec"; "filter"; "float"; "format"; "frozenset"; "getattr";
   "globals"; "hasattr"; "hash"; "help"; "hex"; "id"; "input"; "int";
   "isinstance"; "issubclass"; "iter"; "len"; "list"; "locals"; "map";
   "max"; "memoryview"; "min"; "next"; "object"; "oct"; "open"; "ord";
   "pow"; "print"; "property"; "range"; "repr"; "reversed"; "round";
   "set"; "setattr"; "slice"; "sorted"; "staticmethod"; "str"; "sum";
   "super"; "tuple"; "type"; "vars"; "zip";
   "__import__"; "__build_class__"; "__debug__"; "__doc__"; "__loader__";
   "__name__"; "__package__"; "__spec__";
   "None"; "True"; "False"; "Ellipsis"; "NotImplemented";
   "copyright"; "credits"; "license"; "exit"; "quit";
   "ArithmeticError"; "AssertionError"; "AttributeError"; "BaseException";
   "BaseExceptionGroup"; "BlockingIOError"; "BrokenPipeError";
   "BufferError"; "BytesWarning"; "ChildProcessError";
   "ConnectionAbortedError"; "ConnectionError"; "ConnectionRefusedError";
   "ConnectionResetError"; "DeprecationWarning"; "EOFError";
   "EncodingWarning"; "EnvironmentError"; "Exception"; "ExceptionGroup";
   "FileExistsError"; "FileNotFoundError"; "FloatingPointError";
   "FutureWarning"; "GeneratorExit"; "IOError"; "ImportError";
   "ImportWarning"; "IndentationError"; "IndexError"; "InterruptedError";
   "IsADirectoryError"; "KeyError"; "KeyboardInterrupt"; "LookupError";
   "MemoryError"; "ModuleNotFoundError"; "NameError"; "NotADirectoryError";
   "NotImplementedError"; "OSError"; "OverflowError";
   "PendingDeprecationWarning"; "PermissionError"; "ProcessLookupError";
   "RecursionError"; "ReferenceError"; "ResourceWarning"; "RuntimeError";
   "RuntimeWarning"; "StopAsyncIteration"; "StopIteration"; "SyntaxError";
   "SyntaxWarning"; "SystemError"; "SystemExit"; "TabError";
   "TimeoutError"; "TypeError"; "UnboundLocalError"; "UnicodeDecodeError";
   "UnicodeEncodeError"; "UnicodeError"; "UnicodeTranslateError";
   "UnicodeWarning"; "UserWarning"; "ValueError"; "Warning";
   "ZeroDivisionError"].

Definition bound (name : string) : bool :=
  existsb (String.eqb name) (module_globals ++ builtins).

(** Reading a global name: [NameError] when neither the module nor
    [builtins] binds it. *)
Definition load_global (name : string) : M Trace unit :=
  if bound name then ret tt else raise (NameError name).

Definition levels : list LogLevel := [ERROR; WARN; INFO; DEBUG].

Definition log_format (lvl : N) : string :=
  if (2 <? Z.of_N lvl)
  then "[%(filename)s:%(lineno)s - %(funcName)20s() ] %(message)s"
  else "%(message)s".

Definition is_KeyboardInterrupt (e : exn) : bool :=
  match e with
  | KeyboardInterrupt => true
  | _ => false
  end.

Section Main.

(** [Targets] and [KnxTargets] come from [libknxmap], which is not part
    of these files: each is taken as a constructor that either returns
    the object's [targets] attribute (all [main] reads of it) or
    raises.  [run_until_complete] is the outcome of running a scanner
    coroutine on the event loop. *)
Variable Targets : list string -> Z -> result (list Endpoint).
Variable KnxTargets : option string -> result (list Z).
Variable run_until_complete : Event -> result unit.

(** [os.geteuid()]. *)
Variable geteuid : Z.

Definition run (call : Event) : M Trace unit :=
  emit call ;; lift (run_until_complete call).

Definition main (args : Args) : M Trace unit :=
  when (negb (truthy_list (targets args)) && negb (search_mode args))
    (emit PrintHelp ;; sys_exit 1) ;;
  targets_ ← lift (Targets (targets args) (port args)) ;
  bus_targets_ ← lift (KnxTargets (bus_targets args)) ;
  let format := log_format (level args) in
  lvl ← lift (index levels
                (Z.min (Z.of_N (level args))
                       (Z.of_nat (length levels) - 1))) ;
  emit (BasicConfig lvl format) ;;
  emit GetEventLoop ;;
  (if search_mode args then
     when (negb (truthy_str (iface args)))
       (emit (LogError "--search option requires -i/--interface argument") ;;
        sys_exit 1) ;;
     when (negb (Z.eqb geteuid 0))
       (emit (LogError "-i/--interface option requires superuser privileges") ;;
        sys_exit 1)
   else
     emit (LogInfo ("Scanning " +:+ str_int (Z.of_nat (length targets_))
                    +:+ " target(s)"))) ;;
  load_global "KnxScanner" ;;
  emit (NewScanner targets_ (workers args)) ;;
  try_except_finally
    (if truthy_str (group_write_value args)
        && truthy_str (group_write_address args)
     then
       run (RunGroupWriter {|
         gw_target := group_write_address args;
         gw_value := group_write_value args;
         gw_desc_timeout := desc_timeout args;
         gw_desc_retries := desc_retries args;
         gw_iface := iface args;
         gw_routing := routing args |})
     else
       run (RunScan {|
         sc_search_mode := search_mode args;
         sc_search_timeout := search_timeout args;
         sc_desc_timeout := desc_timeout args;
         sc_desc_retries := desc_retries args;
         sc_bus_targets := bus_targets_;
         sc_bus_info := bus_info args;
         sc_bus_monitor_mode := bus_monitor_mode args;
         sc_group_monitor_mode := group_monitor_mode args;
         sc_iface := iface args;
         sc_bruteforce_key := bruteforce_key args;
         sc_auth_key := auth_key args |}))
    is_KeyboardInterrupt
    (emit CancelAllTasks ;; emit RunForever ;; emit DisconnectBusProtocols)
    (emit LoopClose).

End Main.


(** The two usage checks of [main]: some target or [--search], and for
    [--search] an interface and superuser rights. *)
Definition passes_usage_checks (geteuid : Z) (args : Args) : bool :=
  (truthy_list (targets args) || search_mode args)
  && (if search_mode args
      then truthy_str (iface args) && Z.eqb geteuid 0
      else true).

(** Whether a run got as far as a scanner: its construction or one of
    its two coroutines. *)
Definition uses_scanner (e : Event) : bool :=
  match e with
  | NewScanner _ _ | RunGroupWriter _ | RunScan _ => true
  | _ => false
  end.

(** Whether an event is the [loop.close()] of the [finally] clause. *)
Definition closes_loop (e : Event) : bool :=
  match e with
  | LoopClose => true
  | _ => false
  end.

(** Lines 9 to 21, run when the module is loaded, once the imports of
    lines 2 to 7 are done: the version of the interpreter is checked, then
    [asyncio] is imported.  The state is what was printed; whether
    [import asyncio] finds the module is an input. *)
Definition print (line : string) : M (list string) unit :=
  modify (fun out => out ++ [line]).

Definition startup (major minor : Z) (asyncio_found : bool)
  : M (list string) unit :=
  when ((major <? 3) || ((2 <? major) && (minor <? 3)))
    (print "At least Python version 3.3 is required to run this script!" ;;
     raise (SystemExit 1)) ;;
  when (negb asyncio_found)
    (print "Please install the asyncio module!" ;;
     raise (SystemExit 1)).

End Cli.

(** ** [knxmap/bus/monitor.py]: the [KnxBusMonitor] protocol *)

Module Monitor.

Definition Endpoint : Type := string * Z.

(** *** Messages

    The message classes come from [knxmap.messages]; a parsed message is
    embedded as a tagged value with the attributes the monitor reads.
    The classes are taken to be siblings, so that [isinstance] selects a
    message by its tag. *)

Record Tpci : Type := {
  tpci_type : Z;
  sequence : value
}.

Record Apci : Type := {
  apci_type : Z;
  apci_data : value
}.

(** A cEMI frame.  An address is an int or [None]; the two
    information blocks are dicts. *)
Record Cemi : Type := {
  message_code : Z;
  additional_information : gmap string (list byte);
  extended_control_field : option (gmap string Z);
  knx_source : option Z;
  knx_destination : option Z;
  tpci : option Tpci;
  apci : option Apci;
  raw_frame : option (list byte)
}.

Inductive KnxMessage : Type :=
| KnxConnectRequest (sockname : option Endpoint) (layer_type : option string)
| KnxConnectResponse (ERROR : option string) (ERROR_CODE : option Z)
                     (communication_channel : Z)
| KnxTunnellingRequest (communication_channel sequence_counter : Z)
                       (cemi : option Cemi)
| KnxTunnellingAck (communication_channel sequence_count : Z)
| KnxConnectionStateResponse (ERROR : option string) (ERROR_CODE : option Z)
                             (communication_channel : Z)
| KnxDisconnectRequest (communication_channel : option Z)
| KnxDisconnectResponse (communication_channel : option Z)
| KnxOtherMessage (service_type : Z).

(** *** The session

    The attributes of [self] that the protocol reads and writes, whether
    the transport was closed and the completion future resolved, and the
    calls made on the logger, the transport, the future and the loop. *)

Inductive Callback : Type := knx_keep_alive.

Inductive Event : Type :=
| LogError (msg : string)
| LogInfo (msg : string)
| TraceIncoming (m : KnxMessage)
| TraceOutgoing (m : KnxMessage)
| SendTo (m : KnxMessage)
| TransportClose
| FutureSetResult
| CallLater (delay : Z) (callback : Callback).

Record Session : Type := {
  group_monitor : bool;
  tunnel_established : bool;
  communication_channel : option Z;
  peername : option Endpoint;
  sockname : option Endpoint;
  transport_closed : bool;
  future_done : bool;
  trace : list Event
}.

(** [KnxBusMonitor(future, loop, group_monitor)], before the transport is
    connected. *)
Definition init (group_monitor : bool) : Session := {|
  group_monitor := group_monitor;
  tunnel_established := false;
  communication_channel := None;
  peername := None;
  sockname := None;
  transport_closed := false;
  future_done := false;
  trace := []
|}.

Definition with_trace (t : list Event) (s : Session) : Session := {|
  group_monitor := group_monitor s;
  tunnel_established := tunnel_established s;
  communication_channel := communication_channel s;
  peername := peername s;
  sockname := sockname s;
  transport_closed := transport_closed s;
  future_done := future_done s;
  trace := t
|}.

Definition with_names (peer sock : option Endpoint) (s : Session) : Session := {|
  group_monitor := group_monitor s;
  tunnel_established := tunnel_established s;
  communication_channel := communication_channel s;
  peername := peer;
  sockname := sock;
  transport_closed := transport_closed s;
  future_done := future_done s;
  trace := trace s
|}.

Definition with_tunnel (channel : option Z) (s : Session) : Session := {|
  group_monitor := group_monitor s;
  tunnel_established := true;
  communication_channel := channel;
  peername := peername s;
  sockname := sockname s;
  transport_closed := transport_closed s;
  future_done := future_done s;
  trace := trace s
|}.

Definition with_transport_closed (s : Session) : Session := {|
  group_monitor := group_monitor s;
  tunnel_established := tunnel_established s;
  communication_channel := communication_channel s;
  peername := peername s;
  sockname := sockname s;
  transport_closed := true;
  future_done := future_done s;
  trace := trace s
|}.

Definition with_future_done (s : Session) : Session := {|
  group_monitor := group_monitor s;
  tunnel_established := tunnel_established s;
  communication_channel := communication_channel s;
  peername := peername s;
  sockname := sockname s;
  transport_closed := transport_closed s;
  future_done := true;
  trace := trace s
|}.

Definition emit (e : Event) : M Session unit :=
  modify (fun s => with_trace (trace s ++ [e]) s).

(** [self.transport.sendto(message.get_message())]. *)
Definition transport_sendto (m : KnxMessage) : M Session unit :=
  emit (SendTo m).

(** [self.transport.close()]. *)
Definition transport_close : M Session unit :=
  emit TransportClose ;; modify with_transport_closed.

(** [self.future.set_result(None)]: a future takes one result, a second
    one raises [InvalidStateError]. *)
Definition future_set_result : M Session unit :=
  done ← gets future_done ;
  if (done : bool) then raise InvalidStateError
  else emit FutureSetResult ;; modify with_future_done.

(** Modelled from the spec: [knx_tunnel_disconnect] is inherited from
    [KnxTunnelConnection] in [knxmap/bus/tunnel.py], which is not among
    these files; closing a tunnel sends a DISCONNECT_REQUEST for the
    session's communication channel. *)
Definition knx_tunnel_disconnect : M Session unit :=
  channel ← gets communication_channel ;
  transport_sendto (KnxDisconnectRequest channel).

(** Reading an attribute of a name that was left bound to the empty dict
    of [cemi = tpci = apci = {}]. *)
Definition getattr {A B} (obj : option A) (attr : string) (get : A -> B)
  : result B :=
  match obj with
  | Some o => Ok (get o)
  | None => Raise (AttributeError "dict" attr)
  end.

(** Truth value of a dict that may be [None]. *)
Definition truthy_dict (d : option (gmap string Z)) : bool :=
  match d with
  | Some m => negb (bool_decide (m = ∅))
  | None => false
  end.

(** [d.get(key)] on a dict that is known to be there. *)
Definition dict_get (d : option (gmap string Z)) (key : string) : option Z :=
  m ← d ; m !! key.

(** [codecs.encode(b, 'hex')], which refuses [None]. *)
Definition codecs_encode_hex (b : option (list byte)) : result (list byte) :=
  match b with
  | Some bs => Ok (hex_encode bs)
  | None => Raise TypeError
  end.

Definition acknowledged (primitive : string) : bool :=
  String.eqb primitive "L_Data.con"
  || String.eqb primitive "L_Data.ind"
  || String.eqb primitive "L_Busmon.ind".

Definition is_0x23 (code : option Z) : bool :=
  match code with
  | Some c => Z.eqb c 0x23
  | None => false
  end.

(** The acknowledgements sent (channel and sequence number) and the
    monitor records logged, among some events. *)
Definition acks (events : list Event) : list (Z * Z) :=
  flat_map (fun e => match e with
                     | SendTo (KnxTunnellingAck channel seq) => [(channel, seq)]
                     | _ => []
                     end) events.

Definition records (events : list Event) : list string :=
  flat_map (fun e => match e with
                     | LogInfo record => [record]
                     | _ => []
                     end) events.

(** The code keeps no state attribute.  A session is over once its
    transport is closed and its completion future resolved, and it is
    active while the tunnel is established and neither has happened. *)
Definition closed (s : Session) : bool :=
  transport_closed s && future_done s.

Definition active (s : Session) : bool :=
  tunnel_established s && negb (transport_closed s) && negb (future_done s).

Section Protocol.

(** What [knxmap.messages] and [knxmap.data.constants] supply:
    the decoder (a falsy result stands for a datagram that does not
    decode), the two address formatters (methods of the message) and
    the three name tables. *)
Variable parse_message : list byte -> option KnxMessage.
Variable parse_knx_address : option Z -> result string.
Variable parse_knx_group_address : option Z -> result string.
Variable CEMI_PRIMITIVES : gmap Z string.
Variable _CEMI_TPCI_TYPES : gmap Z string.
Variable _CEMI_APCI_TYPES : gmap Z string.

(** [connection_made]: the names of the two ends are read from the
    transport, the CONNECT_REQUEST is built for the default layer (the
    link layer) or for the bus monitor layer, traced and sent, and the
    first keep-alive is scheduled. *)
Definition connection_made (peer sock : option Endpoint) : M Session unit :=
  modify (with_names peer sock) ;;
  group ← gets group_monitor ;
  let connect_request :=
    if (group : bool) then KnxConnectRequest sock None
    else KnxConnectRequest sock (Some "TUNNEL_BUSMONITOR") in
  emit (TraceOutgoing connect_request) ;;
  transport_sendto connect_request ;;
  emit (CallLater 50 knx_keep_alive).

(** Lines 92 to 96: the binding of the local name [dst_addr], [None]
    when neither branch assigns it. *)
Definition bind_dst_addr (cemi : Cemi) : result (option string) :=
  if truthy_int (knx_destination cemi)
     && truthy_dict (extended_control_field cemi)
     && truthy_int (dict_get (extended_control_field cemi) "address_type")
  then Some <$> parse_knx_group_address (knx_destination cemi)
  else if truthy_int (knx_destination cemi)
  then Some <$> parse_knx_address (knx_destination cemi)
  else Ok None.

(** Lines 85 to 117 of [print_message]: the string bound to [format],
    for a tunnelling request with the given channel, sequence counter and
    cEMI frame.  [None] for [message_cemi] is a falsy [message.cemi], which
    leaves [cemi] bound to the empty dict; the same holds for [tpci] and
    [apci].  The keyword arguments of [format] are evaluated in the order
    they are written. *)
Definition format_record (group : bool) (channel seq : Z)
    (message_cemi : option Cemi) : result string :=
  let cemi := message_cemi in
  let tpci_ := c ← cemi ; tpci c in
  let apci_ := c ← cemi ; _ ← tpci c ; apci c in
  match cemi with
  | None => Raise (AttributeError "dict" "knx_destination")
  | Some c =>
      dst_addr ← bind_dst_addr c ;
      if group then
        let msg_code := CEMI_PRIMITIVES !! message_code c in
        src_addr ← parse_knx_address (knx_source c) ;
        dst ← match dst_addr with
              | Some d => Ok d
              | None => Raise (UnboundLocalError "dst_addr")
              end ;
        tpci_type_ ← getattr tpci_ "tpci_type" tpci_type ;
        tpci_seq ← getattr tpci_ "sequence" sequence ;
        apci_type_ ← getattr apci_ "apci_type" apci_type ;
        apci_data_ ← getattr apci_ "apci_data" apci_data ;
        Ok ("[ chan_id: " +:+ str_int channel
            +:+ ", seq_no: " +:+ str_int seq
            +:+ ", message_code: " +:+ str_opt id msg_code
            +:+ ", source_addr: " +:+ src_addr
            +:+ ", dest_addr: " +:+ dst
            +:+ ", tpci_type: "
            +:+ str_opt id (_CEMI_TPCI_TYPES !! tpci_type_)
            +:+ ", tpci_seq: " +:+ str_value tpci_seq
            +:+ ", apci_type: "
            +:+ str_opt id (_CEMI_APCI_TYPES !! apci_type_)
            +:+ ", apci_data: " +:+ str_value apci_data_
            +:+ " ]")
      else
        let msg_code := CEMI_PRIMITIVES !! message_code c in
        timestamp ← codecs_encode_hex
                      (additional_information c !! "timestamp") ;
        raw ← codecs_encode_hex (raw_frame c) ;
        Ok ("[ chan_id: " +:+ str_int channel
            +:+ ", seq_no: " +:+ str_int seq
            +:+ ", message_code: " +:+ str_opt id msg_code
            +:+ ", timestamp: " +:+ bytes_repr timestamp
            +:+ ", raw_frame: " +:+ bytes_repr raw
            +:+ " ]")
  end.

(** [print_message]: the assertion on the class of the message, the
    record, and [LOGGER.info(format)]. *)
Definition print_message (message : KnxMessage) : M Session unit :=
  match message with
  | KnxTunnellingRequest channel seq message_cemi =>
      group ← gets group_monitor ;
      format ← lift (format_record group channel seq message_cemi) ;
      emit (LogInfo format)
  | _ => raise AssertionError
  end.

(** [datagram_received].  [set_peer] only annotates the message with
    [addr], which nothing here reads. *)
Definition datagram_received (data : list byte) (addr : Endpoint)
  : M Session unit :=
  match parse_message data with
  | None =>
      emit (LogError ("Invalid KNX message: " +:+ bytes_repr data)) ;;
      knx_tunnel_disconnect ;;
      transport_close ;;
      future_set_result
  | Some knx_message =>
      emit (TraceIncoming knx_message) ;;
      match knx_message with
      | KnxConnectResponse ERROR ERROR_CODE channel =>
          if negb (truthy_str ERROR) then
            modify (with_tunnel (Some channel))
          else
            group ← gets group_monitor ;
            (if negb group && is_0x23 ERROR_CODE then
               emit (LogError
                 "Device does not support BUSMONITOR, try --group-monitor instead")
             else
               emit (LogError ("Connection setup error: "
                               +:+ str_opt id ERROR))) ;;
            transport_close ;;
            future_set_result
      | KnxTunnellingRequest channel seq cemi =>
          print_message knx_message ;;
          code ← (match cemi with
                  | Some c => ret (message_code c)
                  | None => raise (AttributeError "NoneType" "message_code")
                  end) ;
          primitive ← (match CEMI_PRIMITIVES !! code with
                       | Some name => ret name
                       | None => raise (KeyError code)
                       end) ;
          when (acknowledged primitive)
            (let tunnelling_ack := KnxTunnellingAck channel seq in
             emit (TraceOutgoing tunnelling_ack) ;;
             transport_sendto tunnelling_ack)
      | KnxTunnellingAck _ _ =>
          print_message knx_message
      | KnxConnectionStateResponse _ _ _ =>
          emit (CallLater 50 knx_keep_alive)
      | KnxDisconnectRequest _ =>
          channel ← gets communication_channel ;
          let connect_response := KnxDisconnectResponse channel in
          transport_sendto connect_response ;;
          transport_close ;;
          future_set_result
      | KnxDisconnectResponse _ =>
          transport_close ;;
          future_set_result
      | _ => ret tt
      end
  end.

End Protocol.

(** The datagrams handed to [transport.sendto], among some events. *)
Definition sent (events : list Event) : list KnxMessage :=
  flat_map (fun e => match e with
                     | SendTo m => [m]
                     | _ => []
                     end) events.

(** The calls of [future.set_result], among some events. *)
Definition resolutions (events : list Event) : list unit :=
  flat_map (fun e => match e with
                     | FutureSetResult => [tt]
                     | _ => []
                     end) events.

Section Lifetime.

Variable parse_message : list byte -> option KnxMessage.
Variable parse_knx_address : option Z -> result string.
Variable parse_knx_group_address : option Z -> result string.
Variable CEMI_PRIMITIVES : gmap Z string.
Variable _CEMI_TPCI_TYPES : gmap Z string.
Variable _CEMI_APCI_TYPES : gmap Z string.

(** The states of a session over its life.  The event loop calls
    [connection_made] once, on the session the constructor built, and then
    [datagram_received] for each datagram that arrives while the transport
    is open: a closed transport delivers nothing more.  A call that raises
    leaves the session in the state it had reached. *)
Inductive reachable : Session -> Prop :=
| reachable_connection_made (group : bool) (peer sock : option Endpoint) :
    reachable (fst (connection_made peer sock (init group)))
| reachable_datagram_received (st : Session) (data : list byte)
    (addr : Endpoint) :
    reachable st ->
    transport_closed st = false ->
    reachable (fst (datagram_received parse_message parse_knx_address
                      parse_knx_group_address CEMI_PRIMITIVES
                      _CEMI_TPCI_TYPES _CEMI_APCI_TYPES data addr st)).

End Lifetime.

End Monitor.

(** ** The keep-alive of the tunnel

    [knx_keep_alive], the callback that [connection_made] and
    [datagram_received] hand to [loop.call_later], is a method of
    [KnxTunnelConnection] in [knxmap/bus/tunnel.py], which is not among
    these files.  This module gives it as the specification describes it,
    together with the part of the event loop that it needs: a clock and
    the timers that are due. *)

Module KeepAlive.

Import Monitor.

(** What a timer of the loop runs when it is due: [knx_keep_alive], or
    the end of the wait for a CONNECTIONSTATE_RESPONSE. *)
Inductive Due : Type := keep_alive_due | response_due.

(** The session, the time in seconds, the timers with the time each is
    due, the number of CONNECTIONSTATE_REQUESTs sent and not answered, and
    whether the session is disconnecting. *)
Record Loop : Type := {
  session : Session;
  now : Z;
  timers : list (Z * Due);
  attempts : nat;
  disconnecting : bool
}.

(** A session just handed to the loop. *)
Definition start (s : Session) (time : Z) : Loop := {|
  session := s;
  now := time;
  timers := [];
  attempts := 0;
  disconnecting := false
|}.

(** Modelled from the spec: the CONNECTIONSTATE_REQUEST that the
    keep-alive sends, service identifier 0x0207. *)
Definition connectionstate_request : KnxMessage := KnxOtherMessage 0x0207.

(** [loop.call_later(delay, self.knx_keep_alive)]: the timers for the
    calls that a handler made, read off the events it added to the
    trace. *)
Definition new_timers (before after : Session) (time : Z) : list (Z * Due) :=
  flat_map (fun e => match e with
                     | CallLater delay knx_keep_alive =>
                         [(time + delay, keep_alive_due)]
                     | _ => []
                     end)
           (drop (length (trace before)) (trace after)).

Definition is_response_due (timer : Z * Due) : bool :=
  match snd timer with
  | response_due => true
  | keep_alive_due => false
  end.

Definition is_connectionstate_response (m : option KnxMessage) : bool :=
  match m with
  | Some (KnxConnectionStateResponse _ _ _) => true
  | _ => false
  end.

(** The timer that is due first (the earlier in the list among equals),
    and the others. *)
Fixpoint pop_earliest (ts : list (Z * Due))
  : option (Z * Due * list (Z * Due)) :=
  match ts with
  | [] => None
  | (t, d) :: rest =>
      match pop_earliest rest with
      | None => Some (t, d, [])
      | Some (t', d', rest') =>
          if t <=? t' then Some (t, d, rest)
          else Some (t', d', (t, d) :: rest')
      end
  end.

(** Modelled from the spec: one attempt of the keep-alive; a
    CONNECTIONSTATE_REQUEST is sent and a response is waited for during
    10 s. *)
Definition send_request (lp : Loop) : Loop := {|
  session := fst (transport_sendto connectionstate_request (session lp));
  now := now lp;
  timers := timers lp ++ [(now lp + 10, response_due)];
  attempts := S (attempts lp);
  disconnecting := disconnecting lp
|}.

(** Modelled from the spec: [knx_keep_alive] of [KnxTunnelConnection]
    ([knxmap/bus/tunnel.py]); "Keepalive: every 50 s send
    CONNECTIONSTATE_REQUEST". *)
Definition knx_keep_alive (lp : Loop) : Loop := send_request lp.

(** Modelled from the spec: the end of the wait that [knx_keep_alive]
    starts; "no response within 10 s after 3 attempts, transition to
    Disconnecting", and "Disconnecting: send DISCONNECT_REQUEST".  Below
    three attempts the request is sent again. *)
Definition response_timeout (lp : Loop) : Loop :=
  if (attempts lp <? 3)%nat then send_request lp
  else {|
    session := fst (knx_tunnel_disconnect (session lp));
    now := now lp;
    timers := timers lp;
    attempts := attempts lp;
    disconnecting := true
  |}.

(** The loop runs the timer that is due first, at the time it is due. *)
Definition fire (lp : Loop) : Loop :=
  match pop_earliest (timers lp) with
  | None => lp
  | Some (t, d, rest) =>
      let lp' := {|
        session := session lp;
        now := Z.max (now lp) t;
        timers := rest;
        attempts := attempts lp;
        disconnecting := disconnecting lp
      |} in
      match d with
      | keep_alive_due => knx_keep_alive lp'
      | response_due => response_timeout lp'
      end
  end.

Section Handlers.

Variable parse_message : list byte -> option KnxMessage.
Variable parse_knx_address : option Z -> result string.
Variable parse_knx_group_address : option Z -> result string.
Variable CEMI_PRIMITIVES : gmap Z string.
Variable _CEMI_TPCI_TYPES : gmap Z string.
Variable _CEMI_APCI_TYPES : gmap Z string.

(** The loop calls [connection_made] of the monitor and takes up the
    timer it asked for. *)
Definition connection_made (peer sock : option Endpoint) (lp : Loop) : Loop :=
  let s := fst (Monitor.connection_made peer sock (session lp)) in
  {| session := s;
     now := now lp;
     timers := timers lp ++ new_timers (session lp) s (now lp);
     attempts := attempts lp;
     disconnecting := disconnecting lp |}.

(** The loop calls [datagram_received] of the monitor and takes up the
    timers it asked for.  A CONNECTIONSTATE_RESPONSE answers the requests
    sent: no attempt is left open and the wait for a response ends. *)
Definition datagram_received (data : list byte) (addr : Endpoint) (lp : Loop)
  : Loop :=
  let s := fst (Monitor.datagram_received parse_message parse_knx_address
                  parse_knx_group_address CEMI_PRIMITIVES _CEMI_TPCI_TYPES
                  _CEMI_APCI_TYPES data addr (session lp)) in
  let answered := is_connectionstate_response (parse_message data) in
  {| session := s;
     now := now lp;
     timers := (if answered
                then filter (fun timer => negb (is_response_due timer))
                       (timers lp)
                else timers lp)
               ++ new_timers (session lp) s (now lp);
     attempts := if answered then 0%nat else attempts lp;
     disconnecting := disconnecting lp |}.

End Handlers.

End KeepAlive.

(** ** The wire formats, for concrete frames

    The decoder, the address formatters and the name tables live in
    [knxmap/messages] and [knxmap/data/constants.py].  The properties
    below hold for any of them; this module gives the ones of the
    specification, with which concrete datagrams can be run through the
    protocol. *)

Module Wire.

Import Monitor.

Definition u8 (b : byte) : Z := Z.of_N (Byte.to_N b).

Definition u16 (hi lo : byte) : Z := Z.lor (Z.shiftl (u8 hi) 8) (u8 lo).

(** Modelled from the spec: the status codes of
    [knxmap/data/constants.py], the well-known ones of the Connecting
    state. *)
Definition KNX_STATUS_CODES : gmap Z string :=
  list_to_map [
    (0x22, "CONNECTION_TYPE"); (0x23, "CONNECTION_OPTION");
    (0x24, "NO_MORE_CONNECTIONS"); (0x26, "DATA_CONNECTION");
    (0x27, "KNX_CONNECTION"); (0x29, "TUNNELLING_LAYER")].

(** Modelled from the spec: the table [CEMI_PRIMITIVES] of
    [knxmap/data/constants.py], the cEMI message codes by number. *)
Definition CEMI_PRIMITIVES : gmap Z string :=
  list_to_map [
    (0x10, "L_Raw.req"); (0x11, "L_Data.req"); (0x29, "L_Data.ind");
    (0x2B, "L_Busmon.ind"); (0x2D, "L_Raw.ind"); (0x2E, "L_Data.con");
    (0x2F, "L_Raw.con"); (0xFB, "M_PropRead.con"); (0xFC, "M_PropRead.req")].

(** Modelled from the spec: the table [_CEMI_TPCI_TYPES] of
    [knxmap/data/constants.py], the 2-bit TPCI type. *)
Definition _CEMI_TPCI_TYPES : gmap Z string :=
  list_to_map [(0, "UDT"); (1, "NDT"); (2, "UCD"); (3, "NCD")].

(** Modelled from the spec: the table [_CEMI_APCI_TYPES] of
    [knxmap/data/constants.py], the 10-bit APCI service codes of the
    group and address services. *)
Definition _CEMI_APCI_TYPES : gmap Z string :=
  list_to_map [
    (0x000, "A_GroupValue_Read"); (0x040, "A_GroupValue_Response");
    (0x080, "A_GroupValue_Write"); (0x100, "A_IndividualAddress_Read");
    (0x140, "A_IndividualAddress_Response")].

(** Modelled from the spec: [parse_knx_address] of the message classes;
    an individual address is 16 bits split 4/4/8 and rendered a.l.d. *)
Definition parse_knx_address (address : option Z) : result string :=
  match address with
  | Some a =>
      Ok (str_int (Z.land (Z.shiftr a 12) 0xf)
          +:+ "." +:+ str_int (Z.land (Z.shiftr a 8) 0xf)
          +:+ "." +:+ str_int (Z.land a 0xff))
  | None => Raise TypeError
  end.

(** Modelled from the spec: [parse_knx_group_address] of the message
    classes; a group address is 16 bits split 5/3/8 and rendered
    main/middle/sub. *)
Definition parse_knx_group_address (address : option Z) : result string :=
  match address with
  | Some a =>
      Ok (str_int (Z.land (Z.shiftr a 11) 0x1f)
          +:+ "/" +:+ str_int (Z.land (Z.shiftr a 8) 0x7)
          +:+ "/" +:+ str_int (Z.land a 0xff))
  | None => Raise TypeError
  end.

(** The status byte of a response: no error for 0, a named error for a
    well-known code, and no decoding for another one. *)
Definition status_error (status : Z) : option (option string * option Z) :=
  if Z.eqb status 0 then Some (None, None)
  else name ← KNX_STATUS_CODES !! status ; Some (Some name, Some status).

(** The additional-information block: type, length, value; the value of
    type 0x04 is the bus monitor's time stamp. *)
Fixpoint additional_info (fuel : nat) (tlvs : list byte)
  : gmap string (list byte) :=
  match fuel, tlvs with
  | S fuel', t :: l :: rest =>
      let n := N.to_nat (Byte.to_N l) in
      let others := additional_info fuel' (drop n rest) in
      if Z.eqb (u8 t) 0x04 then <["timestamp" := take n rest]> others
      else others
  | _, _ => ∅
  end.

(** The TPCI/APCI bytes of an L_Data frame: 2-bit TPCI type and 4-bit
    sequence number, then for a data PDU the 10-bit APCI code, whose six
    low bits are data for the group-value services. *)
Definition parse_tpci (t : byte) : Tpci :=
  {| tpci_type := Z.shiftr (u8 t) 6;
     sequence := VInt (Z.land (Z.shiftr (u8 t) 2) 0xf) |}.

Definition parse_apci (t : byte) (payload : list byte) : option Apci :=
  match payload with
  | a :: data =>
      if u8 t <? 0x80 then
        let code := Z.lor (Z.shiftl (Z.land (u8 t) 3) 8) (u8 a) in
        if Z.shiftr code 6 <? 3 then
          Some {| apci_type := Z.land code 0x3c0;
                  apci_data := match data with
                               | [] => VInt (Z.land code 0x3f)
                               | _ => VBytes data
                               end |}
        else Some {| apci_type := code; apci_data := VBytes data |}
      else None
  | [] => None
  end.

(** Modelled from the spec: the cEMI decoder of [knxmap/messages];
    message code, additional information, then for L_Busmon.ind the raw
    frame, and otherwise the two control fields, source, destination,
    NPDU length and the TPCI/APCI bytes. *)
Definition parse_cemi (body : list byte) : option Cemi :=
  match body with
  | mc :: addil :: rest =>
      let n := N.to_nat (Byte.to_N addil) in
      if (length rest <? n)%nat then None
      else
        let info := additional_info n (take n rest) in
        let frame := drop n rest in
        if Z.eqb (u8 mc) 0x2B then
          Some {| message_code := u8 mc;
                  additional_information := info;
                  extended_control_field := None;
                  knx_source := None;
                  knx_destination := None;
                  tpci := None;
                  apci := None;
                  raw_frame := Some frame |}
        else
          match frame with
          | c1 :: c2 :: sh :: sl :: dh :: dl :: npdu :: t :: payload =>
              if Z.eqb (u8 npdu) (Z.of_nat (length payload)) then
                Some {| message_code := u8 mc;
                        additional_information := info;
                        extended_control_field :=
                          Some (list_to_map [
                            ("address_type", Z.shiftr (u8 c2) 7);
                            ("hop_count", Z.land (Z.shiftr (u8 c2) 4) 7);
                            ("extended_frame_format", Z.land (u8 c2) 0xf)]);
                        knx_source := Some (u16 sh sl);
                        knx_destination := Some (u16 dh dl);
                        tpci := Some (parse_tpci t);
                        apci := parse_apci t payload;
                        raw_frame := None |}
              else None
          | _ => None
          end
  | _ => None
  end.

Definition parse_body (service : Z) (body : list byte) : option KnxMessage :=
  if Z.eqb service 0x0206 then
    match body with
    | channel :: status :: _ =>
        '(error, code) ← status_error (u8 status) ;
        Some (KnxConnectResponse error code (u8 channel))
    | _ => None
    end
  else if Z.eqb service 0x0208 then
    match body with
    | [channel; status] =>
        '(error, code) ← status_error (u8 status) ;
        Some (KnxConnectionStateResponse error code (u8 channel))
    | _ => None
    end
  else if Z.eqb service 0x0209 then
    match body with
    | channel :: _ :: hpai =>
        if (length hpai =? 8)%nat
        then Some (KnxDisconnectRequest (Some (u8 channel)))
        else None
    | _ => None
    end
  else if Z.eqb service 0x020A then
    match body with
    | [channel; _] => Some (KnxDisconnectResponse (Some (u8 channel)))
    | _ => None
    end
  else if Z.eqb service 0x0420 then
    match body with
    | len :: channel :: seq :: _ :: frame =>
        if Z.eqb (u8 len) 4 then
          c ← parse_cemi frame ;
          Some (KnxTunnellingRequest (u8 channel) (u8 seq) (Some c))
        else None
    | _ => None
    end
  else if Z.eqb service 0x0421 then
    match body with
    | [len; channel; seq; _] =>
        if Z.eqb (u8 len) 4
        then Some (KnxTunnellingAck (u8 channel) (u8 seq))
        else None
    | _ => None
    end
  else if existsb (Z.eqb service)
            [0x0201; 0x0202; 0x0203; 0x0204; 0x0205; 0x0207; 0x0530; 0x0531]
  then Some (KnxOtherMessage service)
  else None.

(** Modelled from the spec: [parse_message] of [knxmap/messages]; the
    fixed header (length 0x06, version 0x10, service identifier, total
    length), then the body of the service. *)
Definition parse_message (data : list byte) : option KnxMessage :=
  match data with
  | hl :: version :: s1 :: s0 :: l1 :: l0 :: body =>
      if Z.eqb (u8 hl) 6 && Z.eqb (u8 version) 0x10
         && Z.eqb (u16 l1 l0) (Z.of_nat (length data))
      then parse_body (u16 s1 s0) body
      else None
  | _ => None
  end.

(** The protocol with these. *)
Definition datagram_received :=
  Monitor.datagram_received parse_message parse_knx_address
    parse_knx_group_address CEMI_PRIMITIVES _CEMI_TPCI_TYPES _CEMI_APCI_TYPES.

Definition format_record :=
  Monitor.format_record parse_knx_address parse_knx_group_address
    CEMI_PRIMITIVES _CEMI_TPCI_TYPES _CEMI_APCI_TYPES.

End Wire.


(** ** Concrete runs *)

Module Samples.

Import Cli.

(** Modelled from the spec: [Targets] of [libknxmap]; a target is an
    address and a UDP port, one for each name given. *)
Definition Targets (names : list string) (port : Z)
  : result (list Endpoint) :=
  Ok (map (fun name => (name, port)) names).

(** Modelled from the spec: [KnxTargets] of [libknxmap]; no bus target
    when no range is given, and a range is not expanded here. *)
Definition KnxTargets (range : option string) : result (list Z) :=
  match range with
  | None => Ok []
  | Some _ => Raise (LibraryError "KnxTargets")
  end.

Definition run_until_complete (call : Event) : result unit := Ok tt.

(** [knxmap.py 192.0.2.10] *)
Definition args_one_target : Args := {|
  targets := ["192.0.2.10"];
  port := 3671;
  workers := 30;
  iface := None;
  search_mode := false;
  search_timeout := 5;
  desc_timeout := 2;
  desc_retries := 3;
  bus_targets := None;
  bus_info := false;
  bus_monitor_mode := false;
  group_monitor_mode := false;
  level := 2%N;
  bruteforce_key := false;
  auth_key := 0xffffffff;
  group_write_value := None;
  group_write_address := None;
  routing := false
|}.

(** [knxmap.py --search] *)
Definition args_search_no_iface : Args := {|
  targets := [];
  port := 3671;
  workers := 30;
  iface := None;
  search_mode := true;
  search_timeout := 5;
  desc_timeout := 2;
  desc_retries := 3;
  bus_targets := None;
  bus_info := false;
  bus_monitor_mode := false;
  group_monitor_mode := false;
  level := 2%N;
  bruteforce_key := false;
  auth_key := 0xffffffff;
  group_write_value := None;
  group_write_address := None;
  routing := false
|}.

(** [knxmap.py --search -i eth0] *)
Definition args_search_eth0 : Args := {|
  targets := [];
  port := 3671;
  workers := 30;
  iface := Some "eth0";
  search_mode := true;
  search_timeout := 5;
  desc_timeout := 2;
  desc_retries := 3;
  bus_targets := None;
  bus_info := false;
  bus_monitor_mode := false;
  group_monitor_mode := false;
  level := 2%N;
  bruteforce_key := false;
  auth_key := 0xffffffff;
  group_write_value := None;
  group_write_address := None;
  routing := false
|}.

Definition main (geteuid : Z) (args : Args) : Trace * result unit :=
  Cli.main Targets KnxTargets run_until_complete geteuid args [].

(** The gateway and the local endpoint of the tunnel. *)
Definition gateway : Monitor.Endpoint := ("192.0.2.10", 3671).

Definition local : Monitor.Endpoint := ("192.0.2.1", 50000).

(** CONNECT_RESPONSE, channel 7, status 0x00, with the data endpoint and
    the CRD of a tunnel whose individual address is 1.1.5. *)
Definition connect_response_ok : list byte :=
  [x06; x10; x02; x06; x00; x14;
   x07; x00;
   x08; x01; xc0; x00; x02; x0a; x0e; x57;
   x04; x04; x11; x05].

(** CONNECT_RESPONSE with status 0x23 and with status 0x24. *)
Definition connect_response_0x23 : list byte :=
  [x06; x10; x02; x06; x00; x08; x00; x23].

Definition connect_response_0x24 : list byte :=
  [x06; x10; x02; x06; x00; x08; x00; x24].


Definition connectionstate_response_0x26 : list byte :=
  [x06; x10; x02; x08; x00; x08; x07; x26].

(** TUNNELLING_ACK for channel 7, sequence 0. *)
Definition tunnelling_ack : list byte :=
  [x06; x10; x04; x21; x00; x0a; x04; x07; x00; x00].

(** DISCONNECT_REQUEST for channel 7 with the gateway's control
    endpoint. *)
Definition disconnect_request : list byte :=
  [x06; x10; x02; x09; x00; x10;
   x07; x00;
   x08; x01; xc0; x00; x02; x0a; x0e; x57].

(** TUNNELLING_REQUEST carrying an L_Data.ind: device 1.1.1 writes the
    value 1 to the group address 0/0/1. *)
Definition group_write (channel seq : byte) : list byte :=
  [x06; x10; x04; x20; x00; x15;
   x04; channel; seq; x00;
   x29; x00; xbc; xe0; x11; x01; x00; x01; x01; x00; x81].

(** The cEMI frame of [group_write], decoded, and its monitor record on
    channel 7 with sequence number 0. *)
Definition group_write_cemi : Monitor.Cemi := {|
  Monitor.message_code := 0x29;
  Monitor.additional_information := ∅;
  Monitor.extended_control_field :=
    Some (list_to_map [("address_type", 1); ("hop_count", 6);
                       ("extended_frame_format", 0)]);
  Monitor.knx_source := Some 0x1101;
  Monitor.knx_destination := Some 0x0001;
  Monitor.tpci := Some {| Monitor.tpci_type := 0; Monitor.sequence := VInt 0 |};
  Monitor.apci :=
    Some {| Monitor.apci_type := 0x080; Monitor.apci_data := VInt 1 |};
  Monitor.raw_frame := None
|}.

Definition group_write_record : string :=
  "[ chan_id: 7, seq_no: 0, message_code: L_Data.ind, source_addr: 1.1.1, dest_addr: 0/0/1, tpci_type: UDT, tpci_seq: 0, apci_type: A_GroupValue_Write, apci_data: 1 ]".

(** TUNNELLING_REQUEST carrying an L_Data.ind: device 1.1.1 sends an
    A_IndividualAddress_Read to the broadcast address, which is 0. *)
Definition broadcast_read : list byte :=
  [x06; x10; x04; x20; x00; x15;
   x04; x07; x00; x00;
   x29; x00; xbc; xe0; x11; x01; x00; x00; x01; x01; x00].

(** The cEMI frame of [broadcast_read], decoded. *)
Definition broadcast_cemi : Monitor.Cemi := {|
  Monitor.message_code := 0x29;
  Monitor.additional_information := ∅;
  Monitor.extended_control_field :=
    Some (list_to_map [("address_type", 1); ("hop_count", 6);
                       ("extended_frame_format", 0)]);
  Monitor.knx_source := Some 0x1101;
  Monitor.knx_destination := Some 0;
  Monitor.tpci := Some {| Monitor.tpci_type := 0; Monitor.sequence := VInt 0 |};
  Monitor.apci :=
    Some {| Monitor.apci_type := 0x100; Monitor.apci_data := VBytes [] |};
  Monitor.raw_frame := None
|}.

(** TUNNELLING_REQUEST carrying an L_Busmon.ind with a time stamp and the
    raw frame of the same group write. *)
Definition busmon_frame : list byte :=
  [x06; x10; x04; x20; x00; x18;
   x04; x07; x00; x00;
   x2b; x04; x04; x02; x12; x34;
   xbc; x11; x01; x00; x01; xe1; x00; x81].

(** A datagram that is no KNXnet/IP frame. *)
Definition garbage : list byte := [xff; xff; xff].

(** A session after [connection_made], and after the gateway's
    CONNECT_RESPONSE for channel 7. *)
Definition connecting (group : bool) : Monitor.Session :=
  fst (Monitor.connection_made (Some gateway) (Some local)
         (Monitor.init group)).

Definition established (group : bool) : Monitor.Session :=
  fst (Wire.datagram_received connect_response_ok gateway (connecting group)).

(** The session after one more datagram from the gateway, and the events
    that datagram added to the trace. *)
Definition after (data : list byte) (st : Monitor.Session) : Monitor.Session :=
  fst (Wire.datagram_received data gateway st).

Definition events_of (data : list byte) (st : Monitor.Session)
  : list Monitor.Event :=
  drop (length (Monitor.trace st)) (Monitor.trace (after data st)).

(** CONNECT_RESPONSE, channel 9, status 0x00. *)
Definition connect_response_channel_9 : list byte :=
  [x06; x10; x02; x06; x00; x14;
   x09; x00;
   x08; x01; xc0; x00; x02; x0a; x0e; x57;
   x04; x04; x11; x05].

(** DISCONNECT_RESPONSE for channel 7, status 0x00. *)
Definition disconnect_response : list byte :=
  [x06; x10; x02; x0a; x00; x08; x07; x00].

(** TUNNELLING_REQUEST carrying an L_Data.ind with a T_Connect from
    device 1.1.1 to device 1.1.2: a control frame, with no APCI. *)
Definition t_connect : list byte :=
  [x06; x10; x04; x20; x00; x14;
   x04; x07; x00; x00;
   x29; x00; xb0; x60; x11; x01; x11; x02; x00; x80].

(** The cEMI frame of [t_connect], decoded. *)
Definition t_connect_cemi : Monitor.Cemi := {|
  Monitor.message_code := 0x29;
  Monitor.additional_information := ∅;
  Monitor.extended_control_field :=
    Some (list_to_map [("address_type", 0); ("hop_count", 6);
                       ("extended_frame_format", 0)]);
  Monitor.knx_source := Some 0x1101;
  Monitor.knx_destination := Some 0x1102;
  Monitor.tpci := Some {| Monitor.tpci_type := 2; Monitor.sequence := VInt 0 |};
  Monitor.apci := None;
  Monitor.raw_frame := None
|}.

(** The group write of [group_write] on channel 7 under the message code
    0x13, which the table of primitives does not name, and its cEMI
    frame and record. *)
Definition unnamed_code : list byte :=
  [x06; x10; x04; x20; x00; x15;
   x04; x07; x00; x00;
   x13; x00; xbc; xe0; x11; x01; x00; x01; x01; x00; x81].

Definition unnamed_code_cemi : Monitor.Cemi := {|
  Monitor.message_code := 0x13;
  Monitor.additional_information := ∅;
  Monitor.extended_control_field :=
    Some (list_to_map [("address_type", 1); ("hop_count", 6);
                       ("extended_frame_format", 0)]);
  Monitor.knx_source := Some 0x1101;
  Monitor.knx_destination := Some 0x0001;
  Monitor.tpci := Some {| Monitor.tpci_type := 0; Monitor.sequence := VInt 0 |};
  Monitor.apci :=
    Some {| Monitor.apci_type := 0x080; Monitor.apci_data := VInt 1 |};
  Monitor.raw_frame := None
|}.

Definition unnamed_code_record : string :=
  "[ chan_id: 7, seq_no: 0, message_code: None, source_addr: 1.1.1, dest_addr: 0/0/1, tpci_type: UDT, tpci_seq: 0, apci_type: A_GroupValue_Write, apci_data: 1 ]".

(** SEARCH_RESPONSE header with an empty body, which the decoder
    recognises by its service identifier only. *)
Definition search_response : list byte :=
  [x06; x10; x02; x02; x00; x06].

(** The cEMI frame of [busmon_frame], decoded. *)
Definition busmon_cemi : Monitor.Cemi := {|
  Monitor.message_code := 0x2B;
  Monitor.additional_information := {[ "timestamp" := [x12; x34] ]};
  Monitor.extended_control_field := None;
  Monitor.knx_source := None;
  Monitor.knx_destination := None;
  Monitor.tpci := None;
  Monitor.apci := None;
  Monitor.raw_frame := Some [xbc; x11; x01; x00; x01; xe1; x00; x81]
|}.

(** [knxmap.py --bus-targets 1.1.1-1.1.5 192.0.2.10] *)
Definition args_bus_range : Cli.Args := {|
  Cli.targets := ["192.0.2.10"];
  Cli.port := 3671;
  Cli.workers := 30;
  Cli.iface := None;
  Cli.search_mode := false;
  Cli.search_timeout := 5;
  Cli.desc_timeout := 2;
  Cli.desc_retries := 3;
  Cli.bus_targets := Some "1.1.1-1.1.5";
  Cli.bus_info := false;
  Cli.bus_monitor_mode := false;
  Cli.group_monitor_mode := false;
  Cli.level := 5%N;
  Cli.bruteforce_key := false;
  Cli.auth_key := 0xffffffff;
  Cli.group_write_value := None;
  Cli.group_write_address := None;
  Cli.routing := false
|}.

(** The event loop with a group monitor: at time 0 the connection is
    made and the gateway's CONNECT_RESPONSE for channel 7 arrives. *)
Definition monitoring_loop : KeepAlive.Loop :=
  KeepAlive.datagram_received Wire.parse_message Wire.parse_knx_address
    Wire.parse_knx_group_address Wire.CEMI_PRIMITIVES Wire._CEMI_TPCI_TYPES
    Wire._CEMI_APCI_TYPES connect_response_ok gateway
    (KeepAlive.connection_made (Some gateway) (Some local)
       (KeepAlive.start (Monitor.init true) 0)).

(** The loop after [n] timers have run with no datagram in between. *)
Fixpoint unanswered (n : nat) (lp : KeepAlive.Loop) : KeepAlive.Loop :=
  match n with
  | O => lp
  | S n' => KeepAlive.fire (unanswered n' lp)
  end.

End Samples.

(** * Properties *)

(** ** The model on concrete inputs *)

(** [knxmap.py] alone prints the help and exits with code 1. *)
Example main_no_arguments :
  Samples.main 1000 Cli.defaults = ([Cli.PrintHelp], Raise (SystemExit 1)).
Proof. reflexivity. Qed.

(** [knxmap.py 192.0.2.10] configures logging, announces one target and
    stops at the scanner's name. *)
Example main_one_target :
  Samples.main 1000 Samples.args_one_target
  = ([Cli.BasicConfig Cli.INFO "%(message)s"; Cli.GetEventLoop;
      Cli.LogInfo "Scanning 1 target(s)"],
     Raise (NameError "KnxScanner")).
Proof. reflexivity. Qed.

(** [repr] of bytes, as [format] inserts them. *)
Example bytes_repr_escapes :
  bytes_repr [x06; x10; x41; x5c; x0a; xff] = "b'\x06\x10A\\\n\xff'".
Proof. reflexivity. Qed.

Example bytes_repr_hex : bytes_repr (hex_encode [x06; xab]) = "b'06ab'".
Proof. reflexivity. Qed.

(** The decoder on the frames of [Samples]. *)
Example parse_connect_response :
  Wire.parse_message Samples.connect_response_ok
  = Some (Monitor.KnxConnectResponse None None 7).
Proof. reflexivity. Qed.

Example parse_group_write :
  Wire.parse_message (Samples.group_write x07 x00)
  = Some (Monitor.KnxTunnellingRequest 7 0 (Some Samples.group_write_cemi)).
Proof. vm_compute. reflexivity. Qed.

Example parse_garbage : Wire.parse_message Samples.garbage = None.
Proof. reflexivity. Qed.

(** A group monitor logs the group write and acknowledges it. *)
Example group_monitor_record :
  Samples.events_of (Samples.group_write x07 x00) (Samples.established true)
  = [Monitor.TraceIncoming
       (Monitor.KnxTunnellingRequest 7 0 (Some Samples.group_write_cemi));
     Monitor.LogInfo Samples.group_write_record;
     Monitor.TraceOutgoing (Monitor.KnxTunnellingAck 7 0);
     Monitor.SendTo (Monitor.KnxTunnellingAck 7 0)].
Proof. vm_compute. reflexivity. Qed.

(** A bus monitor logs the time stamp and the raw frame of an
    L_Busmon.ind, and acknowledges it. *)
Example bus_monitor_record :
  Monitor.records
    (Samples.events_of Samples.busmon_frame (Samples.established false))
  = ["[ chan_id: 7, seq_no: 0, message_code: L_Busmon.ind, timestamp: b'1234', raw_frame: b'bc11010001e10081' ]"]
  /\ Monitor.acks
       (Samples.events_of Samples.busmon_frame (Samples.established false))
     = [(7, 0)].
Proof. split; vm_compute; reflexivity. Qed.

(** A bus monitor given a frame with no time stamp fails on
    [codecs.encode]. *)
Example bus_monitor_without_timestamp :
  snd (Wire.datagram_received (Samples.group_write x07 x00) Samples.gateway
         (Samples.established false)) = Raise TypeError.
Proof. vm_compute. reflexivity. Qed.

(** Another error status of a CONNECT_RESPONSE is reported by its name. *)
Example connect_response_no_more_connections :
  Samples.events_of Samples.connect_response_0x24 (Samples.connecting false)
  = [Monitor.TraceIncoming
       (Monitor.KnxConnectResponse (Some "NO_MORE_CONNECTIONS") (Some 0x24) 0);
     Monitor.LogError "Connection setup error: NO_MORE_CONNECTIONS";
     Monitor.TransportClose;
     Monitor.FutureSetResult].
Proof. vm_compute. reflexivity. Qed.

(** ** [main] *)

Section MainProperties.

Import Cli.

Variable Targets : list string -> Z -> result (list Endpoint).
Variable KnxTargets : option string -> result (list Z).
Variable run_until_complete : Event -> result unit.
Variable geteuid : Z.

Local Abbreviation main :=
  (Cli.main Targets KnxTargets run_until_complete geteuid).

(** [KnxScanner] is bound neither by the module nor by [builtins]. *)
Lemma KnxScanner_unbound (t : Trace) :
  load_global "KnxScanner" t = (t, Raise (NameError "KnxScanner")).
Proof. reflexivity. Qed.

(** [levels[min(args.level, len(levels)-1)]] never fails. *)
Lemma level_in_range (n : N) :
  exists lvl,
    index levels (Z.min (Z.of_N n) (Z.of_nat (length levels) - 1)) = Ok lvl.
Proof.
  assert (H : Z.min (Z.of_N n) (Z.of_nat (length levels) - 1) = 0
              \/ Z.min (Z.of_N n) (Z.of_nat (length levels) - 1) = 1
              \/ Z.min (Z.of_N n) (Z.of_nat (length levels) - 1) = 2
              \/ Z.min (Z.of_N n) (Z.of_nat (length levels) - 1) = 3)
    by (cbn [levels length]; lia).
  destruct H as [-> | [-> | [-> | ->]]]; cbn; eauto.
Qed.

(** The usage checks pass for a target given without [--search], and for
    [--search] with an interface and as root. *)
Lemma passes_usage_checks_iff (args : Args) :
  passes_usage_checks geteuid args = true
  <-> (search_mode args = false /\ targets args <> [])
      \/ (search_mode args = true /\ truthy_str (iface args) = true
          /\ geteuid = 0).
Proof.
  unfold passes_usage_checks.
  destruct (search_mode args), (targets args) as [| t ts]; cbn;
    rewrite ?andb_true_iff, ?Z.eqb_eq; intuition congruence.
Qed.

Ltac step_main :=
  unfold Cli.main, mbind, M_bind, bind, when, lift, emit, modify,
    sys_exit, raise, ret.

(** C1. Whatever the arguments, a run of [main] never constructs a
    scanner nor runs [scan] or [group_writer]; and when the arguments
    pass the usage checks (a target and no [--search], or [--search] with
    an interface and as root) and the two target lists are built, [main]
    raises [NameError] for the name [KnxScanner]. *)
Theorem main_raises_NameError (args : Args) :
  existsb uses_scanner (fst (main args [])) = false
  /\ (passes_usage_checks geteuid args = true ->
      forall ts bs,
        Targets (targets args) (port args) = Ok ts ->
        KnxTargets (bus_targets args) = Ok bs ->
        snd (main args []) = Raise (NameError "KnxScanner")).
Proof.
  destruct (level_in_range (level args)) as [lvl Hlvl].
  split.
  - step_main. rewrite Hlvl.
    destruct (truthy_list (targets args)), (search_mode args); cbn;
      try reflexivity;
      destruct (Targets _ _); cbn; try reflexivity;
      destruct (KnxTargets _); cbn; try reflexivity;
      try (destruct (truthy_str (iface args)); cbn; try reflexivity;
           destruct (geteuid =? 0); cbn; reflexivity).
  - unfold passes_usage_checks. intros Hu ts bs HT HK.
    step_main. rewrite HT, HK, Hlvl.
    destruct (truthy_list (targets args)), (search_mode args);
      cbn in Hu |- *; try discriminate; try reflexivity;
      destruct (truthy_str (iface args)); cbn in Hu |- *;
        try discriminate;
      destruct (geteuid =? 0); cbn in Hu |- *; try discriminate;
      reflexivity.
Qed.

(** C8, as the code has it. A plain usage error (no target and no
    [--search]) prints the help and exits with code 1.  With [--search],
    once the two target lists are built, a missing interface is reported
    with an error naming [-i/--interface] and a missing superuser right
    with an error naming the privilege, and both exit with code 1 too. *)
Theorem main_usage_errors_exit_1 (args : Args) :
  (truthy_list (targets args) = false -> search_mode args = false ->
   main args [] = ([PrintHelp], Raise (SystemExit 1)))
  /\ (search_mode args = true ->
      forall ts bs,
        Targets (targets args) (port args) = Ok ts ->
        KnxTargets (bus_targets args) = Ok bs ->
        exists lvl,
          (truthy_str (iface args) = false ->
           main args [] =
             ([BasicConfig lvl (log_format (level args)); GetEventLoop;
               LogError "--search option requires -i/--interface argument"],
              Raise (SystemExit 1)))
          /\ (truthy_str (iface args) = true -> geteuid <> 0 ->
              main args [] =
                ([BasicConfig lvl (log_format (level args)); GetEventLoop;
                  LogError "-i/--interface option requires superuser privileges"],
                 Raise (SystemExit 1)))).
Proof.
  destruct (level_in_range (level args)) as [lvl Hlvl].
  split.
  - intros Ht Hs. step_main. rewrite Ht, Hs. reflexivity.
  - intros Hs ts bs HT HK. exists lvl. split.
    + intros Hi. step_main. rewrite Hs, HT, HK, Hlvl, Hi.
      rewrite andb_false_r. reflexivity.
    + intros Hi He. apply Z.eqb_neq in He.
      step_main. rewrite Hs, HT, HK, Hlvl, Hi, He.
      rewrite andb_false_r. reflexivity.
Qed.

End MainProperties.

Lemma main_raises_NameError_witness :
  Cli.passes_usage_checks 1000 Samples.args_one_target = true
  /\ snd (Samples.main 1000 Samples.args_one_target)
     = Raise (NameError "KnxScanner").
Proof.
  split; [reflexivity |].
  exact (proj2 (main_raises_NameError Samples.Targets Samples.KnxTargets
                  Samples.run_until_complete 1000 Samples.args_one_target)
               eq_refl _ _ eq_refl eq_refl).
Defined.

(** C8 as stated fails: [knxmap.py --search], with no interface named,
    run by an ordinary user, exits with code 1 and not with code 2. *)
Lemma search_without_privileges_exit_code :
  snd (Samples.main 1000 Samples.args_search_no_iface) = Raise (SystemExit 1)
  /\ snd (Samples.main 1000 Samples.args_search_eth0) = Raise (SystemExit 1)
  /\ snd (Samples.main 1000 Samples.args_search_no_iface)
     <> Raise (SystemExit 2).
Proof. split; [reflexivity | split; [reflexivity | discriminate]]. Qed.

Lemma main_usage_errors_exit_1_witness :
  Samples.main 1000 Cli.defaults = ([Cli.PrintHelp], Raise (SystemExit 1))
  /\ exists lvl,
      Samples.main 1000 Samples.args_search_eth0 =
        ([Cli.BasicConfig lvl (Cli.log_format 2); Cli.GetEventLoop;
          Cli.LogError "-i/--interface option requires superuser privileges"],
         Raise (SystemExit 1)).
Proof.
  split.
  - exact (proj1 (main_usage_errors_exit_1 Samples.Targets Samples.KnxTargets
                    Samples.run_until_complete 1000 Cli.defaults)
                 eq_refl eq_refl).
  - destruct (proj2 (main_usage_errors_exit_1 Samples.Targets
                       Samples.KnxTargets Samples.run_until_complete 1000
                       Samples.args_search_eth0)
                    eq_refl _ _ eq_refl eq_refl) as [lvl [_ H]].
    exists lvl. apply H; [reflexivity | lia].
Defined.

(** ** [KnxBusMonitor] *)

Section MonitorProperties.

Import Monitor.

Variable parse_message : list byte -> option KnxMessage.
Variable parse_knx_address : option Z -> result string.
Variable parse_knx_group_address : option Z -> result string.
Variable CEMI_PRIMITIVES : gmap Z string.
Variable _CEMI_TPCI_TYPES : gmap Z string.
Variable _CEMI_APCI_TYPES : gmap Z string.

Local Abbreviation datagram_received :=
  (Monitor.datagram_received parse_message parse_knx_address
     parse_knx_group_address CEMI_PRIMITIVES _CEMI_TPCI_TYPES
     _CEMI_APCI_TYPES).

Local Abbreviation format_record :=
  (Monitor.format_record parse_knx_address parse_knx_group_address
     CEMI_PRIMITIVES _CEMI_TPCI_TYPES _CEMI_APCI_TYPES).

Local Abbreviation print_message :=
  (Monitor.print_message parse_knx_address parse_knx_group_address
     CEMI_PRIMITIVES _CEMI_TPCI_TYPES _CEMI_APCI_TYPES).

Lemma with_trace_twice (t1 t2 : list Event) (s : Session) :
  with_trace t2 (with_trace t1 s) = with_trace t2 s.
Proof. reflexivity. Qed.

Ltac step :=
  unfold Monitor.datagram_received, Monitor.print_message,
    Monitor.connection_made, knx_tunnel_disconnect, transport_close,
    future_set_result, transport_sendto, emit,
    mbind, M_bind, bind, when, lift, gets, modify, raise, ret.

(** C6. A datagram that decodes as a TUNNELLING_ACK is handed to
    [print_message], whose assertion on the class of the message fails:
    [datagram_received] raises [AssertionError], having traced the
    incoming message and printed no record. *)
Theorem tunnelling_ack_fails_assertion
    (st : Session) (data : list byte) (addr : Endpoint) (channel seq : Z) :
  parse_message data = Some (KnxTunnellingAck channel seq) ->
  print_message (KnxTunnellingAck channel seq) st = (st, Raise AssertionError)
  /\ datagram_received data addr st =
       (with_trace (trace st ++ [TraceIncoming (KnxTunnellingAck channel seq)]) st,
        Raise AssertionError).
Proof.
  intros Hp. split; [reflexivity |].
  step. rewrite Hp. reflexivity.
Qed.

(** C9. On a DISCONNECT_REQUEST, a session whose future is not yet
    resolved (an active one in particular) sends a DISCONNECT_RESPONSE
    carrying its own communication channel, closes the transport and
    resolves the future, in this order, and is then over. *)
Theorem disconnect_request_closes
    (st : Session) (data : list byte) (addr : Endpoint) (channel : option Z) :
  parse_message data = Some (KnxDisconnectRequest channel) ->
  active st = true ->
  exists st',
    datagram_received data addr st = (st', Ok tt)
    /\ trace st' = trace st ++
         [TraceIncoming (KnxDisconnectRequest channel);
          SendTo (KnxDisconnectResponse (communication_channel st));
          TransportClose;
          FutureSetResult]
    /\ transport_closed st' = true
    /\ future_done st' = true
    /\ closed st' = true.
Proof.
  unfold active. intros Hp Ha.
  apply andb_prop in Ha as [_ Hf]. apply negb_true_iff in Hf.
  eexists. step. rewrite Hp. cbn. rewrite Hf. cbn.
  split; [reflexivity |].
  cbn. rewrite <- !app_assoc. repeat split; reflexivity.
Qed.

(** [dst_addr] is bound only for a truthy destination. *)
Lemma bind_dst_addr_truthy (cemi : Cemi) (d : string) :
  bind_dst_addr parse_knx_address parse_knx_group_address cemi = Ok (Some d) ->
  truthy_int (knx_destination cemi) = true.
Proof.
  unfold bind_dst_addr.
  destruct (truthy_int (knx_destination cemi)); [reflexivity | discriminate].
Qed.

(** C10. [print_message] binds [dst_addr] only when the destination of
    the cEMI frame is truthy.  In group-monitor mode, for a tunnelling
    request whose cEMI frame has no destination or the destination 0 (and
    whose source address is formatted without error), building the record
    raises [UnboundLocalError] for [dst_addr]: [print_message] logs no
    record, and [datagram_received] stops there, with no acknowledgement
    sent. *)
Theorem group_record_unbound_dst_addr
    (st : Session) (data : list byte) (addr : Endpoint)
    (channel seq : Z) (cemi : Cemi) (src : string) :
  group_monitor st = true ->
  parse_message data = Some (KnxTunnellingRequest channel seq (Some cemi)) ->
  truthy_int (knx_destination cemi) = false ->
  parse_knx_address (knx_source cemi) = Ok src ->
  (forall d,
     bind_dst_addr parse_knx_address parse_knx_group_address cemi
     <> Ok (Some d))
  /\ print_message (KnxTunnellingRequest channel seq (Some cemi)) st
     = (st, Raise (UnboundLocalError "dst_addr"))
  /\ datagram_received data addr st =
       (with_trace
          (trace st ++
           [TraceIncoming (KnxTunnellingRequest channel seq (Some cemi))]) st,
        Raise (UnboundLocalError "dst_addr")).
Proof.
  intros Hg Hp Hd Hs.
  assert (Hf : format_record true channel seq (Some cemi)
               = Raise (UnboundLocalError "dst_addr")).
  { unfold Monitor.format_record, bind_dst_addr.
    rewrite Hd. cbn. rewrite Hs. reflexivity. }
  split; [| split].
  - intros d Hb. apply bind_dst_addr_truthy in Hb. congruence.
  - step. cbn -[Monitor.format_record]. rewrite Hg, Hf. reflexivity.
  - step. rewrite Hp. cbn -[Monitor.format_record]. rewrite Hg, Hf.
    reflexivity.
Qed.

(** A tunnelling request whose record is built and whose message code is
    known: the record is logged, and the request is acknowledged with its
    own channel and sequence number when the primitive is one of the
    three. *)
Lemma tunnelling_request_step
    (st : Session) (data : list byte) (addr : Endpoint)
    (channel seq : Z) (cemi : Cemi) (record primitive : string) :
  parse_message data = Some (KnxTunnellingRequest channel seq (Some cemi)) ->
  format_record (group_monitor st) channel seq (Some cemi) = Ok record ->
  CEMI_PRIMITIVES !! message_code cemi = Some primitive ->
  datagram_received data addr st =
    (with_trace
       (trace st ++
        TraceIncoming (KnxTunnellingRequest channel seq (Some cemi))
        :: LogInfo record
        :: (if acknowledged primitive
            then [TraceOutgoing (KnxTunnellingAck channel seq);
                  SendTo (KnxTunnellingAck channel seq)]
            else [])) st,
     Ok tt).
Proof.
  intros Hp Hf Hc. step. rewrite Hp.
  cbn -[Monitor.format_record]. rewrite Hf.
  cbn -[Monitor.format_record]. rewrite Hc.
  destruct (acknowledged primitive); cbn; rewrite <- !app_assoc; reflexivity.
Qed.

(** A tunnelling request that [datagram_received] handles without an
    exception had its record built and its message code known. *)
Lemma tunnelling_request_ok_inv
    (st st' : Session) (data : list byte) (addr : Endpoint)
    (channel seq : Z) (message_cemi : option Cemi) :
  parse_message data = Some (KnxTunnellingRequest channel seq message_cemi) ->
  datagram_received data addr st = (st', Ok tt) ->
  exists cemi record primitive,
    message_cemi = Some cemi
    /\ format_record (group_monitor st) channel seq (Some cemi) = Ok record
    /\ CEMI_PRIMITIVES !! message_code cemi = Some primitive.
Proof.
  intros Hp. step. rewrite Hp. cbn -[Monitor.format_record].
  destruct message_cemi as [cemi |]; [| discriminate].
  destruct (format_record (group_monitor st) channel seq (Some cemi))
    as [record |] eqn:Hf; [| discriminate].
  cbn -[Monitor.format_record].
  destruct (CEMI_PRIMITIVES !! message_code cemi) as [primitive |] eqn:Hc;
    [| discriminate].
  intros _. exists cemi, record, primitive. repeat split; assumption.
Qed.

(** C3, as the code has it. For every TUNNELLING_REQUEST whose record is
    printed and whose cEMI message code has a name, the session sends
    exactly one TUNNELLING_ACK, carrying the request's own communication
    channel and sequence number, if and only if the primitive is
    L_Data.con, L_Data.ind or L_Busmon.ind, and none otherwise.  Neither
    the channel of the session nor any sequence counter is consulted: the
    statement holds in every session state. *)
Theorem tunnelling_request_acknowledged
    (st : Session) (data : list byte) (addr : Endpoint)
    (channel seq : Z) (cemi : Cemi) (record primitive : string) :
  parse_message data = Some (KnxTunnellingRequest channel seq (Some cemi)) ->
  format_record (group_monitor st) channel seq (Some cemi) = Ok record ->
  CEMI_PRIMITIVES !! message_code cemi = Some primitive ->
  exists events,
    datagram_received data addr st = (with_trace (trace st ++ events) st, Ok tt)
    /\ acks events
       = (if String.eqb primitive "L_Data.con"
             || String.eqb primitive "L_Data.ind"
             || String.eqb primitive "L_Busmon.ind"
          then [(channel, seq)] else [])
    /\ records events = [record].
Proof.
  intros Hp Hf Hc. eexists. split.
  - apply (tunnelling_request_step _ _ _ _ _ _ _ _ Hp Hf Hc).
  - unfold acknowledged.
    destruct (_ || _); split; reflexivity.
Qed.

(** C4, as the code has it. A TUNNELLING_REQUEST that was handled without
    error and is received a second time is handled as the first time: it
    is logged as a monitor record again, and acknowledged again if it was
    the first time. *)
Theorem duplicate_request_delivered_again
    (st st1 : Session) (data : list byte) (addr : Endpoint)
    (channel seq : Z) (message_cemi : option Cemi) :
  parse_message data = Some (KnxTunnellingRequest channel seq message_cemi) ->
  datagram_received data addr st = (st1, Ok tt) ->
  exists record events,
    st1 = with_trace (trace st ++ events) st
    /\ records events = [record]
    /\ datagram_received data addr st1
       = (with_trace (trace st1 ++ events) st1, Ok tt).
Proof.
  intros Hp H1.
  destruct (tunnelling_request_ok_inv _ _ _ _ _ _ _ Hp H1)
    as (cemi & record & primitive & -> & Hf & Hc).
  pose proof (tunnelling_request_step _ _ addr _ _ _ _ _ Hp Hf Hc) as Hs.
  rewrite H1 in Hs. injection Hs as ->.
  exists record. eexists. split; [reflexivity | split].
  - destruct (acknowledged primitive); reflexivity.
  - apply (tunnelling_request_step _ _ _ _ _ _ _ _ Hp); assumption.
Qed.

(** C2, as the code has it. A datagram that does not decode ends the
    session at once: the error is logged with the datagram, a tunnel
    disconnect is requested, the transport is closed and the completion
    future resolved. *)
Theorem undecodable_datagram_tears_down
    (st : Session) (data : list byte) (addr : Endpoint) :
  parse_message data = None ->
  future_done st = false ->
  exists st',
    datagram_received data addr st = (st', Ok tt)
    /\ trace st' = trace st ++
         [LogError ("Invalid KNX message: " +:+ bytes_repr data);
          SendTo (KnxDisconnectRequest (communication_channel st));
          TransportClose;
          FutureSetResult]
    /\ closed st' = true.
Proof.
  intros Hp Hf. eexists. step. rewrite Hp. cbn. rewrite Hf. cbn.
  split; [reflexivity |].
  cbn. rewrite <- !app_assoc. split; reflexivity.
Qed.

(** C5, as the code has it. A CONNECT_RESPONSE with an error ends the
    session: an error is logged, the transport closed and the future
    resolved.  For a bus-monitor session and the error code 0x23 the text
    is the one of the code, which names the [--group-monitor] option; in
    every other case it is the generic text with the error's name. *)
Theorem connect_error_reported
    (st : Session) (data : list byte) (addr : Endpoint)
    (error : string) (code : option Z) (channel : Z) :
  parse_message data = Some (KnxConnectResponse (Some error) code channel) ->
  error <> EmptyString ->
  future_done st = false ->
  exists st' text,
    datagram_received data addr st = (st', Ok tt)
    /\ trace st' = trace st ++
         [TraceIncoming (KnxConnectResponse (Some error) code channel);
          LogError text;
          TransportClose;
          FutureSetResult]
    /\ closed st' = true
    /\ (group_monitor st = false -> code = Some 0x23 ->
        text = "Device does not support BUSMONITOR, try --group-monitor instead")
    /\ (group_monitor st = true \/ code <> Some 0x23 ->
        text = "Connection setup error: " +:+ error).
Proof.
  intros Hp He Hf.
  assert (Ht : truthy_str (Some error) = true).
  { cbn. apply negb_true_iff, String.eqb_neq, He. }
  exists (fst (datagram_received data addr st)).
  exists (if negb (group_monitor st) && is_0x23 code
          then "Device does not support BUSMONITOR, try --group-monitor instead"
          else "Connection setup error: " +:+ error).
  step. rewrite Hp. cbn -[truthy_str]. rewrite Ht.
  cbn. destruct (group_monitor st), (is_0x23 code) eqn:Hc; cbn;
    rewrite Hf; cbn; rewrite <- !app_assoc;
    (split; [reflexivity | split; [reflexivity | split; [reflexivity |]]]);
    split; try discriminate; try reflexivity.
  - intros [? | Hn]; [discriminate |]. exfalso. apply Hn.
    destruct code as [c |]; [| discriminate].
    cbn in Hc. apply Z.eqb_eq in Hc. congruence.
  - intros _ ->. discriminate.
Qed.






End MonitorProperties.

Lemma tunnelling_ack_fails_assertion_witness :
  Wire.parse_message Samples.tunnelling_ack = Some (Monitor.KnxTunnellingAck 7 0)
  /\ snd (Wire.datagram_received Samples.tunnelling_ack Samples.gateway
            (Samples.established true)) = Raise AssertionError.
Proof.
  split; [reflexivity |].
  exact (f_equal snd
           (proj2 (tunnelling_ack_fails_assertion
                     Wire.parse_message Wire.parse_knx_address
                     Wire.parse_knx_group_address Wire.CEMI_PRIMITIVES
                     Wire._CEMI_TPCI_TYPES Wire._CEMI_APCI_TYPES
                     (Samples.established true) Samples.tunnelling_ack
                     Samples.gateway 7 0 eq_refl))).
Defined.

Lemma disconnect_request_closes_witness :
  exists st',
    Wire.datagram_received Samples.disconnect_request Samples.gateway
      (Samples.established true) = (st', Ok tt)
    /\ Monitor.trace st' = Monitor.trace (Samples.established true) ++
         [Monitor.TraceIncoming (Monitor.KnxDisconnectRequest (Some 7));
          Monitor.SendTo (Monitor.KnxDisconnectResponse (Some 7));
          Monitor.TransportClose;
          Monitor.FutureSetResult]
    /\ Monitor.transport_closed st' = true
    /\ Monitor.future_done st' = true
    /\ Monitor.closed st' = true.
Proof.
  exact (disconnect_request_closes
           Wire.parse_message Wire.parse_knx_address
           Wire.parse_knx_group_address Wire.CEMI_PRIMITIVES
           Wire._CEMI_TPCI_TYPES Wire._CEMI_APCI_TYPES
           (Samples.established true) Samples.disconnect_request
           Samples.gateway (Some 7) eq_refl eq_refl).
Defined.

Lemma group_record_unbound_dst_addr_witness :
  Wire.parse_message Samples.broadcast_read
  = Some (Monitor.KnxTunnellingRequest 7 0 (Some Samples.broadcast_cemi))
  /\ Monitor.knx_destination Samples.broadcast_cemi = Some 0
  /\ snd (Wire.datagram_received Samples.broadcast_read Samples.gateway
            (Samples.established true))
     = Raise (UnboundLocalError "dst_addr").
Proof.
  split; [vm_compute; reflexivity | split; [reflexivity |]].
  refine (f_equal snd
            (proj2 (proj2 (group_record_unbound_dst_addr
                      Wire.parse_message Wire.parse_knx_address
                      Wire.parse_knx_group_address Wire.CEMI_PRIMITIVES
                      Wire._CEMI_TPCI_TYPES Wire._CEMI_APCI_TYPES
                      (Samples.established true) Samples.broadcast_read
                      Samples.gateway 7 0 Samples.broadcast_cemi "1.1.1"
                      _ _ _ _)))); vm_compute; reflexivity.
Defined.

Lemma undecodable_datagram_tears_down_witness :
  Wire.parse_message Samples.garbage = None
  /\ exists st',
       Wire.datagram_received Samples.garbage Samples.gateway
         (Samples.established true) = (st', Ok tt)
       /\ Monitor.trace st' = Monitor.trace (Samples.established true) ++
            [Monitor.LogError
               ("Invalid KNX message: " +:+ bytes_repr Samples.garbage);
             Monitor.SendTo (Monitor.KnxDisconnectRequest (Some 7));
             Monitor.TransportClose;
             Monitor.FutureSetResult]
       /\ Monitor.closed st' = true.
Proof.
  split; [reflexivity |].
  exact (undecodable_datagram_tears_down
           Wire.parse_message Wire.parse_knx_address
           Wire.parse_knx_group_address Wire.CEMI_PRIMITIVES
           Wire._CEMI_TPCI_TYPES Wire._CEMI_APCI_TYPES
           (Samples.established true) Samples.garbage Samples.gateway
           eq_refl eq_refl).
Defined.

(** C2 as stated fails: a single datagram that does not decode, received
    by an established session, is not dropped with the session going on;
    the session is over after it. *)
Lemma one_malformed_frame_ends_session :
  Wire.parse_message Samples.garbage = None
  /\ Monitor.active (Samples.established true) = true
  /\ Samples.events_of Samples.garbage (Samples.established true)
     = [Monitor.LogError "Invalid KNX message: b'\xff\xff\xff'";
        Monitor.SendTo (Monitor.KnxDisconnectRequest (Some 7));
        Monitor.TransportClose;
        Monitor.FutureSetResult]
  /\ Monitor.active (Samples.after Samples.garbage (Samples.established true))
     = false
  /\ Monitor.closed (Samples.after Samples.garbage (Samples.established true))
     = true.
Proof. repeat split; vm_compute; reflexivity. Qed.

Lemma tunnelling_request_acknowledged_witness :
  exists events,
    Wire.datagram_received (Samples.group_write x07 x00) Samples.gateway
      (Samples.established true)
    = (Monitor.with_trace
         (Monitor.trace (Samples.established true) ++ events)
         (Samples.established true),
       Ok tt)
    /\ Monitor.acks events = [(7, 0)]
    /\ Monitor.records events = [Samples.group_write_record].
Proof.
  refine (tunnelling_request_acknowledged
            Wire.parse_message Wire.parse_knx_address
            Wire.parse_knx_group_address Wire.CEMI_PRIMITIVES
            Wire._CEMI_TPCI_TYPES Wire._CEMI_APCI_TYPES
            (Samples.established true) (Samples.group_write x07 x00)
            Samples.gateway 7 0 Samples.group_write_cemi
            Samples.group_write_record "L_Data.ind" _ _ _);
    vm_compute; reflexivity.
Defined.

(** C3 as stated fails: the session was given channel 7, and a request on
    channel 9 is acknowledged all the same; and from one and the same
    session state the requests with sequence numbers 5, 100 and 200 are
    each acknowledged, while no value of a receive counter has all three
    among itself and its predecessor modulo 256. *)
Lemma ack_ignores_channel_and_sequence :
  Monitor.communication_channel (Samples.established true) = Some 7
  /\ Monitor.acks (Samples.events_of (Samples.group_write x09 x05)
                     (Samples.established true)) = [(9, 5)]
  /\ Monitor.acks (Samples.events_of (Samples.group_write x07 x05)
                     (Samples.established true)) = [(7, 5)]
  /\ Monitor.acks (Samples.events_of (Samples.group_write x07 x64)
                     (Samples.established true)) = [(7, 100)]
  /\ Monitor.acks (Samples.events_of (Samples.group_write x07 xc8)
                     (Samples.established true)) = [(7, 200)]
  /\ forall recv_seq : Z,
       ~ ((5 = recv_seq \/ 5 = (recv_seq - 1) mod 256)
          /\ (100 = recv_seq \/ 100 = (recv_seq - 1) mod 256)
          /\ (200 = recv_seq \/ 200 = (recv_seq - 1) mod 256)).
Proof.
  repeat (split; [vm_compute; reflexivity |]).
  intros recv_seq. lia.
Qed.

Lemma duplicate_request_delivered_again_witness :
  exists record events,
    Samples.after (Samples.group_write x07 x00) (Samples.established true)
    = Monitor.with_trace
        (Monitor.trace (Samples.established true) ++ events)
        (Samples.established true)
    /\ Monitor.records events = [record]
    /\ Wire.datagram_received (Samples.group_write x07 x00) Samples.gateway
         (Samples.after (Samples.group_write x07 x00)
            (Samples.established true))
       = (Monitor.with_trace
            (Monitor.trace
               (Samples.after (Samples.group_write x07 x00)
                  (Samples.established true)) ++ events)
            (Samples.after (Samples.group_write x07 x00)
               (Samples.established true)),
          Ok tt).
Proof.
  refine (duplicate_request_delivered_again
            Wire.parse_message Wire.parse_knx_address
            Wire.parse_knx_group_address Wire.CEMI_PRIMITIVES
            Wire._CEMI_TPCI_TYPES Wire._CEMI_APCI_TYPES
            (Samples.established true)
            (Samples.after (Samples.group_write x07 x00)
               (Samples.established true))
            (Samples.group_write x07 x00) Samples.gateway
            7 0 (Some Samples.group_write_cemi) _ _);
    vm_compute; reflexivity.
Defined.

(** C4 as stated fails: the request with sequence number 0 is received,
    logged and acknowledged, and then received again; the duplicate is
    logged as a second monitor record, and acknowledged again. *)
Lemma duplicate_request_logged_twice :
  Monitor.records
    (Samples.events_of (Samples.group_write x07 x00)
       (Samples.established true))
  = [Samples.group_write_record]
  /\ Monitor.records
       (Samples.events_of (Samples.group_write x07 x00)
          (Samples.after (Samples.group_write x07 x00)
             (Samples.established true)))
     = [Samples.group_write_record]
  /\ Monitor.acks
       (Samples.events_of (Samples.group_write x07 x00)
          (Samples.after (Samples.group_write x07 x00)
             (Samples.established true)))
     = [(7, 0)].
Proof. repeat split; vm_compute; reflexivity. Qed.

Lemma connect_error_reported_witness :
  exists st' text,
    Wire.datagram_received Samples.connect_response_0x23 Samples.gateway
      (Samples.connecting false) = (st', Ok tt)
    /\ Monitor.trace st' = Monitor.trace (Samples.connecting false) ++
         [Monitor.TraceIncoming
            (Monitor.KnxConnectResponse (Some "CONNECTION_OPTION")
               (Some 0x23) 0);
          Monitor.LogError text;
          Monitor.TransportClose;
          Monitor.FutureSetResult]
    /\ Monitor.closed st' = true
    /\ (Monitor.group_monitor (Samples.connecting false) = false ->
        Some 0x23 = Some 0x23 ->
        text = "Device does not support BUSMONITOR, try --group-monitor instead")
    /\ (Monitor.group_monitor (Samples.connecting false) = true
        \/ Some 0x23 <> Some 0x23 ->
        text = "Connection setup error: " +:+ "CONNECTION_OPTION").
Proof.
  refine (connect_error_reported
            Wire.parse_message Wire.parse_knx_address
            Wire.parse_knx_group_address Wire.CEMI_PRIMITIVES
            Wire._CEMI_TPCI_TYPES Wire._CEMI_APCI_TYPES
            (Samples.connecting false) Samples.connect_response_0x23
            Samples.gateway "CONNECTION_OPTION" (Some 0x23) 0 _ _ _);
    [vm_compute; reflexivity | discriminate | reflexivity].
Defined.

(** C5 as stated fails: a bus-monitor session whose CONNECT_REQUEST is
    answered with status 0x23 logs the text of the code, which is not the
    text of the claim. *)
Lemma busmonitor_unsupported_text :
  Monitor.group_monitor (Samples.connecting false) = false
  /\ Samples.events_of Samples.connect_response_0x23 (Samples.connecting false)
     = [Monitor.TraceIncoming
          (Monitor.KnxConnectResponse (Some "CONNECTION_OPTION") (Some 0x23) 0);
        Monitor.LogError
          "Device does not support BUSMONITOR, try --group-monitor instead";
        Monitor.TransportClose;
        Monitor.FutureSetResult]
  /\ ~ In (Monitor.LogError
             "device does not support bus monitor; try group monitor")
          (Monitor.trace
             (Samples.after Samples.connect_response_0x23
                (Samples.connecting false))).
Proof.
  split; [reflexivity | split; [vm_compute; reflexivity |]].
  vm_compute. intros H.
  repeat (destruct H as [H | H]; [discriminate H |]). exact H.
Qed.



(** * Further properties *)

(** ** [knxmap.py] *)

Section MainBehaviour.

Import Cli.

Variable Targets : list string -> Z -> result (list Endpoint).
Variable KnxTargets : option string -> result (list Z).
Variable run_until_complete : Event -> result unit.
Variable geteuid : Z.

Local Abbreviation main :=
  (Cli.main Targets KnxTargets run_until_complete geteuid).

Ltac unfold_main :=
  unfold Cli.main, mbind, M_bind, bind, when, lift, emit, modify,
    sys_exit, raise, ret.

Ltac main_cases args :=
  destruct (truthy_list (targets args)), (search_mode args); cbn;
  try destruct (Targets (targets args) (port args)) as [ts | e1] eqn:HT;
  cbn;
  try destruct (KnxTargets (bus_targets args)) as [bs | e2] eqn:HK;
  cbn;
  try destruct (truthy_str (iface args)); cbn;
  try destruct (geteuid =? 0); cbn.



(** X2. In no run does [main] close the event loop: the [finally]
    clause with [loop.close()] guards only the code after the scanner is
    built, which no run reaches.  Yet it obtains the loop in every run
    that passes the first usage check and builds the two target lists. *)
Theorem main_never_closes_loop (args : Args) :
  existsb closes_loop (fst (main args [])) = false
  /\ (forall ts bs,
        truthy_list (targets args) || search_mode args = true ->
        Targets (targets args) (port args) = Ok ts ->
        KnxTargets (bus_targets args) = Ok bs ->
        In GetEventLoop (fst (main args []))).
Proof.
  destruct (level_in_range (level args)) as [lvl Hlvl].
  split.
  - unfold_main. rewrite Hlvl. main_cases args; reflexivity.
  - intros ts bs Hu HT HK. unfold_main. rewrite HT, HK, Hlvl.
    destruct (truthy_list (targets args)), (search_mode args);
      try discriminate; cbn;
      try destruct (truthy_str (iface args)); cbn;
      try destruct (geteuid =? 0); cbn; auto.
Qed.

(** X3. An exception raised by [Targets] or by [KnxTargets] leaves [main]
    as it is, before anything is logged and before logging is even
    configured: [main] catches nothing at that point. *)
Theorem constructor_failure_propagates (args : Args) (e : exn) :
  truthy_list (targets args) || search_mode args = true ->
  (Targets (targets args) (port args) = Raise e ->
   main args [] = ([], Raise e))
  /\ (forall ts,
        Targets (targets args) (port args) = Ok ts ->
        KnxTargets (bus_targets args) = Raise e ->
        main args [] = ([], Raise e)).
Proof.
  intros Hu. split.
  - intros HT. unfold_main. rewrite HT.
    destruct (truthy_list (targets args)), (search_mode args);
      try discriminate; reflexivity.
  - intros ts HT HK. unfold_main. rewrite HT, HK.
    destruct (truthy_list (targets args)), (search_mode args);
      try discriminate; reflexivity.
Qed.

(** [levels[min(args.level, len(levels)-1)]], case by case. *)
Lemma level_clamp (n : N) :
  index levels (Z.min (Z.of_N n) (Z.of_nat (length levels) - 1))
  = Ok (match n with
        | 0%N => ERROR
        | 1%N => WARN
        | 2%N => INFO
        | _ => DEBUG
        end).
Proof.
  destruct n as [| [[p | p |] | [p | p |] |]]; try reflexivity;
    cbn [levels length Z.of_nat Pos.of_succ_nat Pos.succ Z.sub Z.opp
         Z.add Z.pos_sub Pos.pred_double Z.succ_double Z.pred_double
         Z.double];
    rewrite Z.min_r by lia; reflexivity.
Qed.

Lemma log_format_verbose (n : N) :
  log_format n
  = if (3 <=? n)%N
    then "[%(filename)s:%(lineno)s - %(funcName)20s() ] %(message)s"
    else "%(message)s".
Proof.
  unfold log_format.
  destruct (N.leb_spec 3 n), (Z.ltb_spec 2 (Z.of_N n)); try reflexivity; lia.
Qed.

(** X4. The verbosity count selects the log level with no [IndexError]
    however often [-v] is given: 0 (from [-q]) is ERROR, 1 is WARN, 2 (the
    default) is INFO, and 3 or more is DEBUG, with the long format that
    names file, line and function.  Logging is configured with these
    before the event loop is obtained. *)
Theorem log_level_clamped (args : Args) (ts : list Endpoint) (bs : list Z) :
  truthy_list (targets args) || search_mode args = true ->
  Targets (targets args) (port args) = Ok ts ->
  KnxTargets (bus_targets args) = Ok bs ->
  exists rest,
    fst (main args [])
    = BasicConfig
        (match level args with
         | 0%N => ERROR
         | 1%N => WARN
         | 2%N => INFO
         | _ => DEBUG
         end)
        (if (3 <=? level args)%N
         then "[%(filename)s:%(lineno)s - %(funcName)20s() ] %(message)s"
         else "%(message)s")
      :: GetEventLoop :: rest.
Proof.
  intros Hu HT HK. unfold_main.
  rewrite HT, HK, level_clamp, log_format_verbose.
  destruct (truthy_list (targets args)), (search_mode args);
    try discriminate; cbn;
    try destruct (truthy_str (iface args)); cbn;
    try destruct (geteuid =? 0); cbn; eauto.
Qed.

End MainBehaviour.

(** X5. The start-up code lets the script run exactly when the
    interpreter's major and minor version numbers are both at least 3 and
    [asyncio] can be imported; otherwise it prints one line and exits with
    code 1.  A minor version below 3 is refused whatever the major one. *)
Theorem startup_accepts (major minor : Z) (asyncio_found : bool) :
  (3 <= major /\ 3 <= minor /\ asyncio_found = true
   /\ Cli.startup major minor asyncio_found [] = ([], Ok tt))
  \/ ((major < 3 \/ minor < 3 \/ asyncio_found = false)
      /\ exists line,
           Cli.startup major minor asyncio_found []
           = ([line], Raise (SystemExit 1))).
Proof.
  unfold Cli.startup, Cli.print, mbind, M_bind, bind, when, modify, raise, ret.
  destruct (Z.ltb_spec major 3), (Z.ltb_spec 2 major), (Z.ltb_spec minor 3),
    asyncio_found; cbn; try lia;
    first [ left; repeat split; (lia || reflexivity)
          | right; split; [lia || auto | eexists; reflexivity] ].
Qed.

(** ** [KnxBusMonitor], over all datagrams *)

Section MonitorBehaviour.

Import Monitor.

Variable parse_message : list byte -> option KnxMessage.
Variable parse_knx_address : option Z -> result string.
Variable parse_knx_group_address : option Z -> result string.
Variable CEMI_PRIMITIVES : gmap Z string.
Variable _CEMI_TPCI_TYPES : gmap Z string.
Variable _CEMI_APCI_TYPES : gmap Z string.

Local Abbreviation datagram_received :=
  (Monitor.datagram_received parse_message parse_knx_address
     parse_knx_group_address CEMI_PRIMITIVES _CEMI_TPCI_TYPES
     _CEMI_APCI_TYPES).

Local Abbreviation format_record :=
  (Monitor.format_record parse_knx_address parse_knx_group_address
     CEMI_PRIMITIVES _CEMI_TPCI_TYPES _CEMI_APCI_TYPES).

Local Abbreviation reachable :=
  (Monitor.reachable parse_message parse_knx_address
     parse_knx_group_address CEMI_PRIMITIVES _CEMI_TPCI_TYPES
     _CEMI_APCI_TYPES).

Ltac unfold_monitor :=
  unfold Monitor.datagram_received, Monitor.print_message,
    Monitor.connection_made, knx_tunnel_disconnect, transport_close,
    future_set_result, transport_sendto, emit,
    mbind, M_bind, bind, when, lift, gets, modify, raise, ret.

(** Every path through [datagram_received]: the decoded message, then the
    tests the code makes on it and on the session. *)
Ltac all_paths data :=
  unfold_monitor;
  destruct (parse_message data) as [[| | ? ? [|] | | | | |] |] eqn:Hparse;
  cbn -[Monitor.format_record];
  repeat (match goal with
          | |- context [truthy_str ?e] => destruct (truthy_str e) eqn:?
          | |- context [negb (group_monitor ?s)] =>
              destruct (group_monitor s) eqn:?
          | |- context [is_0x23 ?c] => destruct (is_0x23 c) eqn:?
          | |- context [if future_done ?s then _ else _] =>
              destruct (future_done s) eqn:?
          | |- context [Monitor.format_record ?a ?b ?c ?d ?e ?g ?h ?i ?j] =>
              destruct (Monitor.format_record a b c d e g h i j) eqn:?
          | |- context [?m !! ?k] => destruct (m !! k) eqn:?
          | |- context [acknowledged ?p] => destruct (acknowledged p) eqn:?
          end; cbn -[Monitor.format_record]).

(** X6. Handling a datagram never rewrites what is already in the trace,
    never changes the mode of the session nor the names of its two ends,
    and never takes back that the tunnel is established, the transport
    closed or the future resolved. *)
Theorem datagram_received_keeps
    (st : Session) (data : list byte) (addr : Endpoint) :
  group_monitor (fst (datagram_received data addr st)) = group_monitor st
  /\ peername (fst (datagram_received data addr st)) = peername st
  /\ sockname (fst (datagram_received data addr st)) = sockname st
  /\ (exists events,
        trace (fst (datagram_received data addr st)) = trace st ++ events)
  /\ Bool.le (tunnel_established st)
       (tunnel_established (fst (datagram_received data addr st)))
  /\ Bool.le (transport_closed st)
       (transport_closed (fst (datagram_received data addr st)))
  /\ Bool.le (future_done st)
       (future_done (fst (datagram_received data addr st))).
Proof.
  all_paths data.
  all: rewrite <- ?app_assoc; cbn [app].
  all: repeat split; try (eexists; reflexivity);
    try (destruct (tunnel_established st); reflexivity);
    try (destruct (transport_closed st); reflexivity);
    try (destruct (future_done st); reflexivity).
  all: try (rewrite Heqb; reflexivity); try (rewrite Heqb0; reflexivity);
    try (rewrite Heqb1; reflexivity); try (rewrite Heqb2; reflexivity).
Qed.

(** X7. The communication channel of the session changes only when a
    CONNECT_RESPONSE without error is handled, which sets it to the
    channel of that response and marks the tunnel established, whatever
    the session was before: a later response replaces the channel. *)
Theorem channel_set_by_connect_response
    (st : Session) (data : list byte) (addr : Endpoint) :
  (communication_channel (fst (datagram_received data addr st))
   = communication_channel st
   \/ exists error code channel,
        parse_message data = Some (KnxConnectResponse error code channel)
        /\ truthy_str error = false
        /\ communication_channel (fst (datagram_received data addr st))
           = Some channel)
  /\ (forall error code channel,
        parse_message data = Some (KnxConnectResponse error code channel) ->
        truthy_str error = false ->
        datagram_received data addr st
        = (with_tunnel (Some channel)
             (with_trace
                (trace st ++
                 [TraceIncoming (KnxConnectResponse error code channel)]) st),
           Ok tt)).
Proof.
  split.
  - all_paths data; auto.
    right. do 3 eexists. split; [reflexivity | split; [assumption |]].
    reflexivity.
  - intros error code channel Hp He. unfold_monitor. rewrite Hp. cbn.
    rewrite He. reflexivity.
Qed.

(** One call of [datagram_received] on a session whose transport is open
    keeps the four facts of the invariant below, and its call of
    [future.set_result], if it makes one, finds the future unresolved: an
    [InvalidStateError] could only come out of the address formatters,
    while the record is built. *)
Lemma invariant_step (st : Session) (data : list byte) (addr : Endpoint) :
  transport_closed st = false ->
  transport_closed st = future_done st ->
  (tunnel_established st = true ->
   exists channel, communication_channel st = Some channel) ->
  (length (acks (trace st)) <= length (records (trace st)))%nat ->
  resolutions (trace st) = (if future_done st then [tt] else []) ->
  (transport_closed (fst (datagram_received data addr st))
   = future_done (fst (datagram_received data addr st)))
  /\ (tunnel_established (fst (datagram_received data addr st)) = true ->
      exists channel,
        communication_channel (fst (datagram_received data addr st))
        = Some channel)
  /\ (length (acks (trace (fst (datagram_received data addr st))))
      <= length (records (trace (fst (datagram_received data addr st)))))%nat
  /\ resolutions (trace (fst (datagram_received data addr st)))
     = (if future_done (fst (datagram_received data addr st))
        then [tt] else [])
  /\ (snd (datagram_received data addr st) = Raise InvalidStateError ->
      exists channel seq cemi,
        parse_message data = Some (KnxTunnellingRequest channel seq cemi)
        /\ format_record (group_monitor st) channel seq cemi
           = Raise InvalidStateError).
Proof.
  intros H0 H1 H2 H3 H4.
  assert (Hf : future_done st = false) by congruence.
  rewrite Hf in H4.
  all_paths data.
  all: cbn -[Monitor.format_record acks records resolutions] in *.
  all: try congruence.
  all: unfold acks, records, resolutions in *;
    rewrite ?flat_map_app, ?length_app; cbn;
    rewrite ?app_nil_r, ?H4, ?H0, ?Hf; cbn;
    repeat match goal with |- _ /\ _ => split end;
    eauto; try lia; try discriminate; try congruence.
  all: intros He; injection He as ->; eauto.
Qed.

(** The four facts, in every state of a session's life. *)
Lemma reachable_facts (st : Session) :
  reachable st ->
  transport_closed st = future_done st
  /\ (tunnel_established st = true ->
      exists channel, communication_channel st = Some channel)
  /\ (length (acks (trace st)) <= length (records (trace st)))%nat
  /\ resolutions (trace st) = (if future_done st then [tt] else []).
Proof.
  induction 1 as [group peer sock | st data addr _ IH Hopen].
  - unfold_monitor. destruct group; cbn;
      repeat split; (discriminate || lia || reflexivity).
  - destruct IH as (H1 & H2 & H3 & H4).
    destruct (invariant_step st data addr Hopen H1 H2 H3 H4)
      as (? & ? & ? & ? & _).
    repeat split; assumption.
Qed.

(** X8. In every state of a session's life (the constructor,
    [connection_made], then the datagrams that arrive while the transport
    is open) the transport is closed exactly when the future is resolved,
    an established tunnel has a communication channel, and no more
    acknowledgements were sent than monitor records logged. *)
Theorem reachable_invariant (st : Session) :
  reachable st ->
  transport_closed st = future_done st
  /\ (tunnel_established st = true ->
      exists channel, communication_channel st = Some channel)
  /\ (length (acks (trace st)) <= length (records (trace st)))%nat.
Proof.
  intros H. destruct (reachable_facts st H) as (H1 & H2 & H3 & _).
  repeat split; assumption.
Qed.

(** X9. Whatever the datagram, at most one acknowledgement is sent for
    it, and only for a tunnelling request whose monitor record was built
    and logged: the acknowledgement carries the channel and the sequence
    number of that request, and the call returns normally. *)
Theorem ack_only_for_logged_request
    (st : Session) (data : list byte) (addr : Endpoint) :
  exists events,
    trace (fst (datagram_received data addr st)) = trace st ++ events
    /\ (acks events = []
        \/ exists channel seq cemi record,
             parse_message data
             = Some (KnxTunnellingRequest channel seq (Some cemi))
             /\ format_record (group_monitor st) channel seq (Some cemi)
                = Ok record
             /\ acks events = [(channel, seq)]
             /\ records events = [record]
             /\ snd (datagram_received data addr st) = Ok tt).
Proof.
  all_paths data.
  all: rewrite <- ?app_assoc; cbn [app];
    eexists; (split; [reflexivity |]); cbn; auto.
  right. do 4 eexists. repeat split; eauto.
Qed.

(** X10. What the session transmits for a datagram is fixed by the class
    of the decoded message: a DISCONNECT_REQUEST for its own channel when
    the datagram does not decode, a DISCONNECT_RESPONSE for its own
    channel on a DISCONNECT_REQUEST, at most the acknowledgement of a
    tunnelling request, and nothing for any other message. *)
Theorem replies_by_message_class
    (st : Session) (data : list byte) (addr : Endpoint) :
  exists events,
    trace (fst (datagram_received data addr st)) = trace st ++ events
    /\ match parse_message data with
       | None =>
           sent events = [KnxDisconnectRequest (communication_channel st)]
       | Some (KnxDisconnectRequest _) =>
           sent events = [KnxDisconnectResponse (communication_channel st)]
       | Some (KnxTunnellingRequest channel seq _) =>
           sent events = [] \/ sent events = [KnxTunnellingAck channel seq]
       | Some _ => sent events = []
       end.
Proof.
  all_paths data.
  all: rewrite <- ?app_assoc; cbn [app];
    eexists; (split; [reflexivity |]); cbn; auto.
Qed.

(** X11. [datagram_received] raises in three cases only: the future was
    already resolved when the handler came to resolve it
    ([InvalidStateError]); the message is a TUNNELLING_ACK
    ([AssertionError]); or the message is a tunnelling request whose
    record could not be built, or whose message code has no name
    ([KeyError]). *)
Theorem datagram_received_raises
    (st : Session) (data : list byte) (addr : Endpoint) (e : exn) :
  snd (datagram_received data addr st) = Raise e ->
  (future_done st = true /\ e = InvalidStateError)
  \/ (exists channel seq,
        parse_message data = Some (KnxTunnellingAck channel seq)
        /\ e = AssertionError)
  \/ (exists channel seq cemi,
        parse_message data = Some (KnxTunnellingRequest channel seq cemi)
        /\ (format_record (group_monitor st) channel seq cemi = Raise e
            \/ exists c,
                 cemi = Some c
                 /\ CEMI_PRIMITIVES !! message_code c = None
                 /\ e = KeyError (message_code c))).
Proof.
  all_paths data.
  all: cbn -[Monitor.format_record] in *; intros He;
    try discriminate He; injection He as <-.
  all: try (left; split; [assumption || reflexivity | reflexivity]).
  all: try (right; left; do 2 eexists; split; reflexivity).
  all: right; right; do 3 eexists; (split; [reflexivity |]); eauto.
  discriminate.
Qed.

(** X12. Over a session's life [future.set_result] is called at most
    once, and never on a resolved future: the trace shows one call if the
    future is resolved and none otherwise, and when a datagram arrives
    (the transport is open) the future is unresolved, so that an
    [InvalidStateError] can only come out of the address formatters while
    a record is built, never out of [set_result]. *)
Theorem future_resolved_once (st : Session) :
  reachable st ->
  resolutions (trace st) = (if future_done st then [tt] else [])
  /\ (transport_closed st = false -> future_done st = false)
  /\ forall (data : list byte) (addr : Endpoint),
       transport_closed st = false ->
       snd (datagram_received data addr st) = Raise InvalidStateError ->
       exists channel seq cemi,
         parse_message data = Some (KnxTunnellingRequest channel seq cemi)
         /\ format_record (group_monitor st) channel seq cemi
            = Raise InvalidStateError.
Proof.
  intros H. destruct (reachable_facts st H) as (H1 & H2 & H3 & H4).
  split; [assumption | split; [congruence |]].
  intros data addr Hopen.
  apply (invariant_step st data addr Hopen H1 H2 H3 H4).
Qed.

(** X13. A tunnelling request whose record is built but whose cEMI
    message code has no name in [CEMI_PRIMITIVES] is logged (the record
    shows the name as [None]) and then fails with [KeyError] on the
    subscript; it is not acknowledged. *)
Theorem unknown_message_code
    (st : Session) (data : list byte) (addr : Endpoint)
    (channel seq : Z) (cemi : Cemi) (record : string) :
  parse_message data = Some (KnxTunnellingRequest channel seq (Some cemi)) ->
  format_record (group_monitor st) channel seq (Some cemi) = Ok record ->
  CEMI_PRIMITIVES !! message_code cemi = None ->
  datagram_received data addr st
  = (with_trace
       (trace st ++
        [TraceIncoming (KnxTunnellingRequest channel seq (Some cemi));
         LogInfo record]) st,
     Raise (KeyError (message_code cemi))).
Proof.
  intros Hp Hf Hc. unfold_monitor. rewrite Hp.
  cbn -[Monitor.format_record]. rewrite Hf.
  cbn -[Monitor.format_record]. rewrite Hc. cbn.
  rewrite <- !app_assoc. reflexivity.
Qed.

(** X14. In group-monitor mode the record of a cEMI frame is built
    exactly when [dst_addr] gets bound, the source address is formatted,
    and the frame has both a TPCI and an APCI. *)
Theorem group_record_built_iff (channel seq : Z) (cemi : Cemi) :
  (exists record, format_record true channel seq (Some cemi) = Ok record)
  <-> (exists d,
         bind_dst_addr parse_knx_address parse_knx_group_address cemi
         = Ok (Some d))
      /\ (exists src, parse_knx_address (knx_source cemi) = Ok src)
      /\ is_Some (tpci cemi)
      /\ is_Some (apci cemi).
Proof.
  unfold Monitor.format_record.
  destruct (bind_dst_addr _ _ cemi) as [[d |] | e1]; cbn;
    destruct (parse_knx_address (knx_source cemi)) as [src | e2]; cbn;
    destruct (tpci cemi) as [t |]; cbn;
    destruct (apci cemi) as [a |]; cbn;
    (split;
     [ intros [record H]; try discriminate H;
       repeat split; eauto
     | intros ([d' Hd] & [src' Hs] & [t' Ht] & [a' Ha]);
       try discriminate; eauto ]).
Qed.

(** X15. In group-monitor mode a frame that has its addresses but no
    TPCI, or a TPCI and no APCI (a transport control frame), makes the
    handler fail with [AttributeError] on the empty dict that stands in
    for the missing part; nothing is logged and nothing acknowledged. *)
Theorem group_record_without_tpci_or_apci
    (st : Session) (data : list byte) (addr : Endpoint)
    (channel seq : Z) (cemi : Cemi) (d src : string) :
  group_monitor st = true ->
  parse_message data = Some (KnxTunnellingRequest channel seq (Some cemi)) ->
  bind_dst_addr parse_knx_address parse_knx_group_address cemi
  = Ok (Some d) ->
  parse_knx_address (knx_source cemi) = Ok src ->
  (tpci cemi = None ->
   datagram_received data addr st
   = (with_trace
        (trace st ++
         [TraceIncoming (KnxTunnellingRequest channel seq (Some cemi))]) st,
      Raise (AttributeError "dict" "tpci_type")))
  /\ (is_Some (tpci cemi) -> apci cemi = None ->
      datagram_received data addr st
      = (with_trace
           (trace st ++
            [TraceIncoming (KnxTunnellingRequest channel seq (Some cemi))]) st,
         Raise (AttributeError "dict" "apci_type"))).
Proof.
  intros Hg Hp Hd Hs. split.
  - intros Ht. unfold_monitor. rewrite Hp. cbn -[Monitor.format_record].
    rewrite Hg. unfold Monitor.format_record. rewrite Hd. cbn.
    rewrite Hs, Ht. reflexivity.
  - intros [t Ht] Ha. unfold_monitor. rewrite Hp.
    cbn -[Monitor.format_record].
    rewrite Hg. unfold Monitor.format_record. rewrite Hd. cbn.
    rewrite Hs, Ht, Ha. reflexivity.
Qed.

(** X16. In bus-monitor mode the record of a cEMI frame is built exactly
    when the binding of [dst_addr] raises nothing and the frame has a time
    stamp in its additional information and a raw frame; neither the
    destination nor the TPCI and APCI need be there. *)
Theorem bus_record_built_iff (channel seq : Z) (cemi : Cemi) :
  (exists record, format_record false channel seq (Some cemi) = Ok record)
  <-> (exists d,
         bind_dst_addr parse_knx_address parse_knx_group_address cemi = Ok d)
      /\ is_Some (additional_information cemi !! "timestamp")
      /\ is_Some (raw_frame cemi).
Proof.
  unfold Monitor.format_record, codecs_encode_hex.
  destruct (bind_dst_addr _ _ cemi) as [d | e1]; cbn;
    destruct (additional_information cemi !! "timestamp") as [ts |]; cbn;
    destruct (raw_frame cemi) as [raw |]; cbn;
    (split;
     [ intros [record H]; try discriminate H;
       repeat split; eauto
     | intros ([d' Hd] & [ts' Ht] & [raw' Hr]);
       try discriminate; eauto ]).
Qed.

(** X17. From the constructor, [connection_made] followed by a
    CONNECT_RESPONSE without error gives an active session on the channel
    of the response: one datagram was sent so far, the CONNECT_REQUEST
    with the local end of the transport, for the bus monitor layer unless
    the session is a group monitor. *)
Theorem session_becomes_active
    (group : bool) (peer sock : option Endpoint)
    (data : list byte) (addr : Endpoint)
    (error : option string) (code : option Z) (channel : Z) :
  parse_message data = Some (KnxConnectResponse error code channel) ->
  truthy_str error = false ->
  exists st,
    datagram_received data addr
      (fst (connection_made peer sock (init group))) = (st, Ok tt)
    /\ active st = true
    /\ communication_channel st = Some channel
    /\ group_monitor st = group
    /\ sent (trace st)
       = [KnxConnectRequest sock
            (if group then None else Some "TUNNEL_BUSMONITOR")].
Proof.
  intros Hp He. eexists. unfold_monitor. rewrite Hp. cbn. rewrite He.
  split; [reflexivity |]. destruct group; repeat split; reflexivity.
Qed.

(** X18. A DISCONNECT_RESPONSE ends a session whose future is not yet
    resolved: the transport is closed and the future resolved, and
    nothing is sent. *)
Theorem disconnect_response_closes
    (st : Session) (data : list byte) (addr : Endpoint) (channel : option Z) :
  parse_message data = Some (KnxDisconnectResponse channel) ->
  future_done st = false ->
  exists st',
    datagram_received data addr st = (st', Ok tt)
    /\ trace st' = trace st ++
         [TraceIncoming (KnxDisconnectResponse channel);
          TransportClose;
          FutureSetResult]
    /\ closed st' = true
    /\ communication_channel st' = communication_channel st.
Proof.
  intros Hp Hf. eexists. unfold_monitor. rewrite Hp. cbn. rewrite Hf. cbn.
  split; [reflexivity |]. cbn. rewrite <- !app_assoc.
  repeat split; reflexivity.
Qed.

End MonitorBehaviour.

(** ** The same on concrete runs *)

(** The keep-alive of the monitoring loop is due at 50 s.  Left
    unanswered, requests go out at 50, 60 and 70 s and the session is
    disconnecting at 80 s. *)
Example keep_alive_unanswered :
  KeepAlive.timers Samples.monitoring_loop = [(50, KeepAlive.keep_alive_due)]
  /\ KeepAlive.now (Samples.unanswered 3 Samples.monitoring_loop) = 70
  /\ KeepAlive.disconnecting (Samples.unanswered 3 Samples.monitoring_loop)
     = false
  /\ KeepAlive.now (Samples.unanswered 4 Samples.monitoring_loop) = 80
  /\ KeepAlive.disconnecting (Samples.unanswered 4 Samples.monitoring_loop)
     = true
  /\ Monitor.sent
       (Monitor.trace
          (KeepAlive.session (Samples.unanswered 4 Samples.monitoring_loop)))
     = [Monitor.KnxConnectRequest (Some Samples.local) None;
        KeepAlive.connectionstate_request;
        KeepAlive.connectionstate_request;
        KeepAlive.connectionstate_request;
        Monitor.KnxDisconnectRequest (Some 7)].
Proof. repeat split; vm_compute; reflexivity. Qed.

(** Answered after the second attempt, even with an error status, the
    session is not disconnecting and the next keep-alive is due 50 s
    after the answer. *)
Example keep_alive_answered :
  KeepAlive.timers
    (KeepAlive.datagram_received Wire.parse_message Wire.parse_knx_address
       Wire.parse_knx_group_address Wire.CEMI_PRIMITIVES
       Wire._CEMI_TPCI_TYPES Wire._CEMI_APCI_TYPES
       Samples.connectionstate_response_0x26 Samples.gateway
       (Samples.unanswered 2 Samples.monitoring_loop))
  = [(110, KeepAlive.keep_alive_due)]
  /\ KeepAlive.disconnecting
       (Samples.unanswered 3
          (KeepAlive.datagram_received Wire.parse_message
             Wire.parse_knx_address Wire.parse_knx_group_address
             Wire.CEMI_PRIMITIVES Wire._CEMI_TPCI_TYPES
             Wire._CEMI_APCI_TYPES Samples.connectionstate_response_0x26
             Samples.gateway (Samples.unanswered 2 Samples.monitoring_loop)))
     = false.
Proof. split; vm_compute; reflexivity. Qed.

Example parse_t_connect :
  Wire.parse_message Samples.t_connect
  = Some (Monitor.KnxTunnellingRequest 7 0 (Some Samples.t_connect_cemi)).
Proof. vm_compute. reflexivity. Qed.

(** A message of a class the monitor does not handle is traced and
    nothing more. *)
Example search_response_ignored :
  Samples.events_of Samples.search_response (Samples.established true)
  = [Monitor.TraceIncoming (Monitor.KnxOtherMessage 0x0202)]
  /\ Samples.after Samples.search_response (Samples.established true)
     = Monitor.with_trace
         (Monitor.trace (Samples.established true) ++
          [Monitor.TraceIncoming (Monitor.KnxOtherMessage 0x0202)])
         (Samples.established true).
Proof. split; vm_compute; reflexivity. Qed.

Example parse_busmon_frame :
  Wire.parse_message Samples.busmon_frame
  = Some (Monitor.KnxTunnellingRequest 7 0 (Some Samples.busmon_cemi)).
Proof. vm_compute. reflexivity. Qed.

Lemma main_never_closes_loop_witness :
  In Cli.GetEventLoop (fst (Samples.main 1000 Samples.args_one_target)).
Proof.
  exact (proj2 (main_never_closes_loop Samples.Targets Samples.KnxTargets
                  Samples.run_until_complete 1000 Samples.args_one_target)
               _ _ eq_refl eq_refl eq_refl).
Defined.

Lemma constructor_failure_propagates_witness :
  Samples.KnxTargets (Cli.bus_targets Samples.args_bus_range)
  = Raise (LibraryError "KnxTargets")
  /\ Samples.main 1000 Samples.args_bus_range
     = ([], Raise (LibraryError "KnxTargets")).
Proof.
  split; [reflexivity |].
  exact (proj2 (constructor_failure_propagates Samples.Targets
                  Samples.KnxTargets Samples.run_until_complete 1000
                  Samples.args_bus_range (LibraryError "KnxTargets") eq_refl)
               _ eq_refl eq_refl).
Defined.

Lemma log_level_clamped_witness :
  exists rest,
    fst (Cli.main Samples.Targets (fun _ => Ok []) Samples.run_until_complete
           1000 Samples.args_bus_range [])
    = Cli.BasicConfig Cli.DEBUG
        "[%(filename)s:%(lineno)s - %(funcName)20s() ] %(message)s"
      :: Cli.GetEventLoop :: rest.
Proof.
  exact (log_level_clamped Samples.Targets (fun _ => Ok [])
           Samples.run_until_complete 1000 Samples.args_bus_range
           _ _ eq_refl eq_refl eq_refl).
Defined.

Lemma channel_set_by_connect_response_witness :
  Monitor.communication_channel (Samples.established true) = Some 7
  /\ Wire.datagram_received Samples.connect_response_channel_9
       Samples.gateway (Samples.established true)
     = (Monitor.with_tunnel (Some 9)
          (Monitor.with_trace
             (Monitor.trace (Samples.established true) ++
              [Monitor.TraceIncoming (Monitor.KnxConnectResponse None None 9)])
             (Samples.established true)),
        Ok tt).
Proof.
  split; [reflexivity |].
  exact (proj2 (channel_set_by_connect_response
                  Wire.parse_message Wire.parse_knx_address
           Wire.parse_knx_group_address Wire.CEMI_PRIMITIVES
           Wire._CEMI_TPCI_TYPES Wire._CEMI_APCI_TYPES
                  (Samples.established true)
                  Samples.connect_response_channel_9 Samples.gateway)
               None None 9 eq_refl eq_refl).
Defined.

(** The established session of [Samples] is a state of a session's
    life. *)
Lemma established_reachable (group : bool) :
  Monitor.reachable Wire.parse_message Wire.parse_knx_address
           Wire.parse_knx_group_address Wire.CEMI_PRIMITIVES
           Wire._CEMI_TPCI_TYPES Wire._CEMI_APCI_TYPES
    (Samples.established group).
Proof.
  apply Monitor.reachable_datagram_received;
    [apply Monitor.reachable_connection_made | reflexivity].
Qed.

Lemma reachable_invariant_witness :
  Monitor.transport_closed (Samples.established true)
  = Monitor.future_done (Samples.established true)
  /\ (Monitor.tunnel_established (Samples.established true) = true ->
      exists channel,
        Monitor.communication_channel (Samples.established true)
        = Some channel)
  /\ (length (Monitor.acks (Monitor.trace (Samples.established true)))
      <= length (Monitor.records (Monitor.trace (Samples.established true))))%nat.
Proof.
  exact (reachable_invariant
           Wire.parse_message Wire.parse_knx_address
           Wire.parse_knx_group_address Wire.CEMI_PRIMITIVES
           Wire._CEMI_TPCI_TYPES Wire._CEMI_APCI_TYPES
           (Samples.established true) (established_reachable true)).
Defined.

Lemma future_resolved_once_witness :
  Monitor.resolutions (Monitor.trace (Samples.established true)) = []
  /\ Monitor.future_done (Samples.established true) = false.
Proof.
  destruct (future_resolved_once
              Wire.parse_message Wire.parse_knx_address
           Wire.parse_knx_group_address Wire.CEMI_PRIMITIVES
           Wire._CEMI_TPCI_TYPES Wire._CEMI_APCI_TYPES
              (Samples.established true) (established_reachable true))
    as (Hr & Hf & _).
  split; [exact Hr | exact (Hf eq_refl)].
Defined.

Lemma datagram_received_raises_witness :
  snd (Wire.datagram_received Samples.tunnelling_ack Samples.gateway
         (Samples.established true)) = Raise AssertionError
  /\ ((Monitor.future_done (Samples.established true) = true
       /\ AssertionError = InvalidStateError)
      \/ (exists channel seq,
            Wire.parse_message Samples.tunnelling_ack
            = Some (Monitor.KnxTunnellingAck channel seq)
            /\ AssertionError = AssertionError)
      \/ (exists channel seq cemi,
            Wire.parse_message Samples.tunnelling_ack
            = Some (Monitor.KnxTunnellingRequest channel seq cemi)
            /\ (Wire.format_record
                  (Monitor.group_monitor (Samples.established true))
                  channel seq cemi = Raise AssertionError
                \/ exists c,
                     cemi = Some c
                     /\ Wire.CEMI_PRIMITIVES !! Monitor.message_code c = None
                     /\ AssertionError = KeyError (Monitor.message_code c)))).
Proof.
  split; [reflexivity |].
  exact (datagram_received_raises
           Wire.parse_message Wire.parse_knx_address
           Wire.parse_knx_group_address Wire.CEMI_PRIMITIVES
           Wire._CEMI_TPCI_TYPES Wire._CEMI_APCI_TYPES
           (Samples.established true) Samples.tunnelling_ack Samples.gateway
           AssertionError eq_refl).
Defined.

Lemma unknown_message_code_witness :
  Wire.CEMI_PRIMITIVES !! 0x13 = None
  /\ Wire.datagram_received Samples.unnamed_code Samples.gateway
       (Samples.established true)
     = (Monitor.with_trace
          (Monitor.trace (Samples.established true) ++
           [Monitor.TraceIncoming
              (Monitor.KnxTunnellingRequest 7 0
                 (Some Samples.unnamed_code_cemi));
            Monitor.LogInfo Samples.unnamed_code_record])
          (Samples.established true),
        Raise (KeyError 0x13)).
Proof.
  split; [reflexivity |].
  refine (unknown_message_code
            Wire.parse_message Wire.parse_knx_address
           Wire.parse_knx_group_address Wire.CEMI_PRIMITIVES
           Wire._CEMI_TPCI_TYPES Wire._CEMI_APCI_TYPES
            (Samples.established true) Samples.unnamed_code Samples.gateway
            7 0 Samples.unnamed_code_cemi Samples.unnamed_code_record
            _ _ _); vm_compute; reflexivity.
Defined.

Lemma group_record_built_iff_witness :
  exists record,
    Wire.format_record true 7 0 (Some Samples.group_write_cemi) = Ok record.
Proof.
  apply (proj2 (group_record_built_iff
                  Wire.parse_knx_address Wire.parse_knx_group_address
                  Wire.CEMI_PRIMITIVES Wire._CEMI_TPCI_TYPES
                  Wire._CEMI_APCI_TYPES 7 0 Samples.group_write_cemi)).
  split; [exists "0/0/1"; vm_compute; reflexivity |].
  split; [exists "1.1.1"; reflexivity |].
  split; eexists; reflexivity.
Defined.

Lemma group_record_without_tpci_or_apci_witness :
  Wire.datagram_received Samples.t_connect Samples.gateway
    (Samples.established true)
  = (Monitor.with_trace
       (Monitor.trace (Samples.established true) ++
        [Monitor.TraceIncoming
           (Monitor.KnxTunnellingRequest 7 0 (Some Samples.t_connect_cemi))])
       (Samples.established true),
     Raise (AttributeError "dict" "apci_type")).
Proof.
  refine (proj2 (group_record_without_tpci_or_apci
                   Wire.parse_message Wire.parse_knx_address
           Wire.parse_knx_group_address Wire.CEMI_PRIMITIVES
           Wire._CEMI_TPCI_TYPES Wire._CEMI_APCI_TYPES
                   (Samples.established true) Samples.t_connect
                   Samples.gateway 7 0 Samples.t_connect_cemi "1.1.2" "1.1.1"
                   _ _ _ _) _ _);
    first [ vm_compute; reflexivity | eexists; reflexivity ].
Defined.

Lemma bus_record_built_iff_witness :
  exists record,
    Wire.format_record false 7 0 (Some Samples.busmon_cemi) = Ok record.
Proof.
  apply (proj2 (bus_record_built_iff
                  Wire.parse_knx_address Wire.parse_knx_group_address
                  Wire.CEMI_PRIMITIVES Wire._CEMI_TPCI_TYPES
                  Wire._CEMI_APCI_TYPES 7 0 Samples.busmon_cemi)).
  split; [exists None; reflexivity |].
  split; eexists; vm_compute; reflexivity.
Defined.

Lemma session_becomes_active_witness :
  exists st,
    Wire.datagram_received Samples.connect_response_ok Samples.gateway
      (fst (Monitor.connection_made (Some Samples.gateway)
              (Some Samples.local) (Monitor.init false))) = (st, Ok tt)
    /\ Monitor.active st = true
    /\ Monitor.communication_channel st = Some 7
    /\ Monitor.group_monitor st = false
    /\ Monitor.sent (Monitor.trace st)
       = [Monitor.KnxConnectRequest (Some Samples.local)
            (Some "TUNNEL_BUSMONITOR")].
Proof.
  exact (session_becomes_active
           Wire.parse_message Wire.parse_knx_address
           Wire.parse_knx_group_address Wire.CEMI_PRIMITIVES
           Wire._CEMI_TPCI_TYPES Wire._CEMI_APCI_TYPES
           false (Some Samples.gateway) (Some Samples.local)
           Samples.connect_response_ok Samples.gateway None None 7
           eq_refl eq_refl).
Defined.

Lemma disconnect_response_closes_witness :
  exists st',
    Wire.datagram_received Samples.disconnect_response Samples.gateway
      (Samples.established true) = (st', Ok tt)
    /\ Monitor.trace st' = Monitor.trace (Samples.established true) ++
         [Monitor.TraceIncoming (Monitor.KnxDisconnectResponse (Some 7));
          Monitor.TransportClose;
          Monitor.FutureSetResult]
    /\ Monitor.closed st' = true
    /\ Monitor.communication_channel st'
       = Monitor.communication_channel (Samples.established true).
Proof.
  exact (disconnect_response_closes
           Wire.parse_message Wire.parse_knx_address
           Wire.parse_knx_group_address Wire.CEMI_PRIMITIVES
           Wire._CEMI_TPCI_TYPES Wire._CEMI_APCI_TYPES
           (Samples.established true) Samples.disconnect_response
           Samples.gateway (Some 7) eq_refl eq_refl).
Defined.
